(** * Domain registration resource: state mapping and identity codec

    A shallow embedding of [internal/services/domain/helpers.go] and of the
    validation and identifier code of [internal/services/domain/order_domain.go].

    Go values of type [interface{}] are a tagged union, Go maps
    [map[string]interface{}] are finite maps that may also be [nil], and a Go
    function that can return an [error] or stop with a run-time panic is a
    function into [outcome]. *)

From Stdlib Require Import ZArith String Ascii List Bool.
From Stdlib Require Import Floats.SpecFloat.
From stdpp Require Import gmap strings list fin_maps.

Open Scope string_scope.

(** ** Outcomes of a Go call *)

(** The two run-time panics the embedded code can raise. *)
Inductive panic : Type :=
| InterfaceConversion   (* x.(T) on a value whose dynamic type is not T *)
| NilDereference.       (* method with a value receiver called through nil *)

(** A call returns a value, returns a non-nil [error] (kept as its message),
    or panics. *)
Inductive outcome (A : Type) : Type :=
| Ret (a : A)
| Err (msg : string)
| Panic (p : panic).

Arguments Ret {A} a.
Arguments Err {A} msg.
Arguments Panic {A} p.

#[global] Instance outcome_ret : MRet outcome := fun _ a => Ret a.

#[global] Instance outcome_bind : MBind outcome := fun _ _ f o =>
  match o with
  | Ret a => f a
  | Err msg => Err msg
  | Panic p => Panic p
  end.

(** ** Dynamic values *)

(** The dynamic types that occur under [interface{}] in this package.
    [VMap None] is a nil map stored in an interface: the interface value
    itself is not nil. [VNil] is the nil interface, which is also what
    indexing a map at a missing key gives. *)
#[warnings="-register-all"]
Inductive value : Type :=
| VNil
| VString (s : string)
| VBool (b : bool)
| VInt (n : Z)
| VUint32 (n : Z)
| VFloat64 (f : spec_float)
| VMap (m : option (gmap string value)).

(** [map[string]interface{}]: [None] is the nil map. *)
Abbreviation gomap := (option (gmap string value)).

(** [m[key]] *)
Definition index (m : gomap) (key : string) : value :=
  match m with
  | Some g => default VNil (g !! key)
  | None => VNil
  end.

Arguments index : simpl never.

(** [len(m)] *)
Definition len (m : gomap) : nat :=
  match m with
  | Some g => size g
  | None => 0
  end.

(** [v, ok := x.(string)] and its sisters: [None] stands for [ok == false]. *)
Definition asString (x : value) : option string :=
  match x with VString s => Some s | _ => None end.

Definition asBool (x : value) : option bool :=
  match x with VBool b => Some b | _ => None end.

Definition asFloat64 (x : value) : option spec_float :=
  match x with VFloat64 f => Some f | _ => None end.

Definition asMap (x : value) : option gomap :=
  match x with VMap m => Some m | _ => None end.

(** [x.(string)], the one-result form, panics when the assertion fails. *)
Definition mustString (x : value) : outcome string :=
  match x with VString s => Ret s | _ => Panic InterfaceConversion end.

Definition mustMap (x : value) : outcome gomap :=
  match x with VMap m => Ret m | _ => Panic InterfaceConversion end.

(** ** Strings *)

(** [strings.Split(s, sep)] for a separator of one byte, the only way the
    package calls it: [cur] is the segment being scanned. *)
Fixpoint split_from (cur s : string) (sep : ascii) : list string :=
  match s with
  | EmptyString => [cur]
  | String c rest =>
      if Ascii.eqb c sep then cur :: split_from "" rest sep
      else split_from (cur ++ String c "") rest sep
  end.

Definition strings_Split (s : string) (sep : ascii) : list string :=
  split_from "" s sep.

(** [strings.HasPrefix(s, prefix)] *)
Definition strings_HasPrefix (s prefix : string) : bool :=
  String.prefix prefix s.

Fixpoint contains (c : ascii) (s : string) : bool :=
  match s with
  | EmptyString => false
  | String c' rest => Ascii.eqb c' c || contains c rest
  end.

(** ** Identity codec *)

(** [d.SetId(resp.ProjectID + "/" + domainName)] in
    [resourceOrderDomainCreate]. *)
Definition resourceOrderDomainID (projectID domainName : string) : string :=
  projectID ++ "/" ++ domainName.

Definition extractDomainFromID (id : string) : outcome string :=
  let parts := strings_Split id "/" in
  if negb (Nat.eqb (length parts) 2) then
    Err ("invalid ID format, expected 'projectID/domainName', got: " ++ id)
  else
    Ret (nth 1 parts "").

(** ** Time *)

(** [time.Time] as the calendar reading it presents: date, clock,
    nanoseconds and zone offset in seconds east of UTC. *)
Record Time : Type := mkTime {
  year : Z; month : Z; day : Z;
  hour : Z; minute : Z; second : Z;
  nanosecond : Z; zoneOffset : Z
}.

(** The two calls into Go's [time] package, both at layout [time.RFC3339]:
    [time.Parse(time.RFC3339, v)], where [None] stands for [err != nil], and
    [t.Format(time.RFC3339)]. The package does not define them, so the
    development is parametric in them. *)
Class TimeRFC3339 : Type := {
  time_Parse : string -> option Time;
  time_Format : Time -> string
}.

(** ** Numeric conversion *)

(** Integer part of a float64, rounding toward zero; 0 for NaN and
    infinities. *)
Definition truncate (f : spec_float) : Z :=
  match f with
  | S754_finite s m e =>
      let magnitude :=
        match e with
        | Z0 => Zpos m
        | Zpos n => Z.shiftl (Zpos m) (Zpos n)
        | Zneg n => Z.shiftr (Zpos m) (Zpos n)
        end in
      if s then - magnitude else magnitude
  | _ => 0
  end.

(** [uint32(v)] for [v float64]. Go fixes the result only when the integer
    part fits in 32 bits; elsewhere the model wraps. *)
Definition uint32_of_float64 (f : spec_float) : Z :=
  truncate f mod 2 ^ 32.

(** ** SDK structures

    The structs of [scaleway-sdk-go/api/domain/v2beta1] with the fields this
    package reads or writes. A Go pointer field is an [option]. *)

Module ContactExtensionFRIndividualInfo.
Record t : Type := mk { WhoisOptIn : bool }.
Definition zero : t := mk false.
End ContactExtensionFRIndividualInfo.

Module ContactExtensionFRDunsInfo.
Record t : Type := mk { DunsID : string; LocalID : string }.
Definition zero : t := mk "" "".
End ContactExtensionFRDunsInfo.

Module ContactExtensionFRAssociationInfo.
Record t : Type := mk { PublicationJo : option Time; PublicationJoPage : Z }.
Definition zero : t := mk None 0.
End ContactExtensionFRAssociationInfo.

Module ContactExtensionFRTrademarkInfo.
Record t : Type := mk { TrademarkInpi : string }.
Definition zero : t := mk "".
End ContactExtensionFRTrademarkInfo.

Module ContactExtensionFRCodeAuthAfnicInfo.
Record t : Type := mk { CodeAuthAfnic : string }.
Definition zero : t := mk "".
End ContactExtensionFRCodeAuthAfnicInfo.

Module ContactExtensionFR.
Record t : Type := mk {
  Mode : string;
  IndividualInfo : option ContactExtensionFRIndividualInfo.t;
  DunsInfo : option ContactExtensionFRDunsInfo.t;
  AssociationInfo : option ContactExtensionFRAssociationInfo.t;
  TrademarkInfo : option ContactExtensionFRTrademarkInfo.t;
  CodeAuthAfnicInfo : option ContactExtensionFRCodeAuthAfnicInfo.t
}.
End ContactExtensionFR.

Module ContactExtensionEU.
Record t : Type := mk { EuropeanCitizenship : string }.
End ContactExtensionEU.

Module ContactExtensionNL.
Record t : Type := mk {
  LegalForm : string;
  LegalFormRegistrationNumber : string
}.
End ContactExtensionNL.

(** [domain.ContactExtensionFRModeModeUnknown] and
    [domain.ContactExtensionNLLegalFormLegalFormUnknown]. *)
Definition ContactExtensionFRModeModeUnknown : string := "mode_unknown".
Definition ContactExtensionNLLegalFormLegalFormUnknown : string :=
  "legal_form_unknown".

(** [domain.Contact], the contact of a response. [ID] is assigned by the
    registrar; no function of the package reads or writes it. *)
Module Contact.
Record t : Type := mk {
  ID : string;
  PhoneNumber : string;
  LegalForm : string;
  Firstname : string;
  Lastname : string;
  Email : string;
  AddressLine1 : string;
  Zip : string;
  City : string;
  Country : string;
  CompanyName : string;
  EmailAlt : string;
  FaxNumber : string;
  AddressLine2 : string;
  VatIDentificationCode : string;
  CompanyIDentificationCode : string;
  Lang : string;
  Resale : bool;
  State : string;
  WhoisOptIn : bool;
  ExtensionFr : option ContactExtensionFR.t;
  ExtensionEu : option ContactExtensionEU.t;
  ExtensionNl : option ContactExtensionNL.t
}.
End Contact.

(** [domain.NewContact], the contact of a request: its optional strings are
    [*string]. *)
Module NewContact.
Record t : Type := mk {
  PhoneNumber : string;
  LegalForm : string;
  Firstname : string;
  Lastname : string;
  Email : string;
  AddressLine1 : string;
  Zip : string;
  City : string;
  Country : string;
  Resale : bool;
  WhoisOptIn : bool;
  CompanyName : option string;
  EmailAlt : option string;
  FaxNumber : option string;
  AddressLine2 : option string;
  VatIDentificationCode : option string;
  CompanyIDentificationCode : option string;
  State : option string;
  ExtensionFr : option ContactExtensionFR.t;
  ExtensionEu : option ContactExtensionEU.t;
  ExtensionNl : option ContactExtensionNL.t
}.
End NewContact.

(** ** Expander *)

Section Expander.
Context `{TimeRFC3339}.

Definition parseEnum (data : gomap) (key : string) (defaultValue : string)
  : string :=
  match asString (index data key) with
  | Some value => value
  | None => defaultValue
  end.

(** The type switch of [mapToStruct]: one instance per case, with the zero
    value [var result T] that [parseStruct] passes in. *)
Class MapTarget (T : Type) : Type := {
  zeroValue : T;
  mapToStruct : gomap -> T -> T
}.

#[global] Instance target_IndividualInfo
  : MapTarget ContactExtensionFRIndividualInfo.t := {
  zeroValue := ContactExtensionFRIndividualInfo.zero;
  mapToStruct data t :=
    match asBool (index data "whois_opt_in") with
    | Some v => ContactExtensionFRIndividualInfo.mk v
    | None => t
    end
}.

#[global] Instance target_DunsInfo
  : MapTarget ContactExtensionFRDunsInfo.t := {
  zeroValue := ContactExtensionFRDunsInfo.zero;
  mapToStruct data t :=
    let t :=
      match asString (index data "duns_id") with
      | Some v =>
          ContactExtensionFRDunsInfo.mk v (ContactExtensionFRDunsInfo.LocalID t)
      | None => t
      end in
    match asString (index data "local_id") with
    | Some v =>
        ContactExtensionFRDunsInfo.mk (ContactExtensionFRDunsInfo.DunsID t) v
    | None => t
    end
}.

#[global] Instance target_AssociationInfo
  : MapTarget ContactExtensionFRAssociationInfo.t := {
  zeroValue := ContactExtensionFRAssociationInfo.zero;
  mapToStruct data t :=
    let t :=
      match asString (index data "publication_jo") with
      | Some v =>
          match time_Parse v with
          | Some parsedTime =>
              ContactExtensionFRAssociationInfo.mk (Some parsedTime)
                (ContactExtensionFRAssociationInfo.PublicationJoPage t)
          | None => t
          end
      | None => t
      end in
    match asFloat64 (index data "publication_jo_page") with
    | Some v =>
        ContactExtensionFRAssociationInfo.mk
          (ContactExtensionFRAssociationInfo.PublicationJo t)
          (uint32_of_float64 v)
    | None => t
    end
}.

#[global] Instance target_TrademarkInfo
  : MapTarget ContactExtensionFRTrademarkInfo.t := {
  zeroValue := ContactExtensionFRTrademarkInfo.zero;
  mapToStruct data t :=
    match asString (index data "trademark_inpi") with
    | Some v => ContactExtensionFRTrademarkInfo.mk v
    | None => t
    end
}.

#[global] Instance target_CodeAuthAfnicInfo
  : MapTarget ContactExtensionFRCodeAuthAfnicInfo.t := {
  zeroValue := ContactExtensionFRCodeAuthAfnicInfo.zero;
  mapToStruct data t :=
    match asString (index data "code_auth_afnic") with
    | Some v => ContactExtensionFRCodeAuthAfnicInfo.mk v
    | None => t
    end
}.

Definition parseStruct (T : Type) `{MapTarget T} (data : gomap) (key : string)
  : option T :=
  match asMap (index data key) with
  | Some nested => Some (mapToStruct nested zeroValue)
  | None => None
  end.

(** The [interface{}] that [expandContactExtension] returns: the nil
    interface or a pointer to one of the three extension structs. *)
Inductive extension : Type :=
| ExtensionNil
| ExtensionFR (e : ContactExtensionFR.t)
| ExtensionNL (e : ContactExtensionNL.t)
| ExtensionEU (e : ContactExtensionEU.t).

Definition expandContactExtension (extensionMap : gomap)
  (extensionType : string) : extension :=
  if bool_decide (extensionMap = None) || Nat.eqb (len extensionMap) 0 then
    ExtensionNil
  else if String.eqb extensionType "fr" then
    ExtensionFR {|
      ContactExtensionFR.Mode :=
        parseEnum extensionMap "mode" ContactExtensionFRModeModeUnknown;
      ContactExtensionFR.IndividualInfo :=
        parseStruct ContactExtensionFRIndividualInfo.t
          extensionMap "individual_info";
      ContactExtensionFR.DunsInfo :=
        parseStruct ContactExtensionFRDunsInfo.t extensionMap "duns_info";
      ContactExtensionFR.AssociationInfo :=
        parseStruct ContactExtensionFRAssociationInfo.t
          extensionMap "association_info";
      ContactExtensionFR.TrademarkInfo :=
        parseStruct ContactExtensionFRTrademarkInfo.t
          extensionMap "trademark_info";
      ContactExtensionFR.CodeAuthAfnicInfo :=
        parseStruct ContactExtensionFRCodeAuthAfnicInfo.t
          extensionMap "code_auth_afnic_info"
    |}
  else if String.eqb extensionType "nl" then
    let legalFormRegistrationNumber :=
      match extensionMap with
      | Some g =>
          match g !! "legal_form_registration_number" with
          | Some (VString str) => str
          | _ => ""
          end
      | None => ""
      end in
    ExtensionNL {|
      ContactExtensionNL.LegalForm :=
        parseEnum extensionMap "legal_form"
          ContactExtensionNLLegalFormLegalFormUnknown;
      ContactExtensionNL.LegalFormRegistrationNumber :=
        legalFormRegistrationNumber
    |}
  else if String.eqb extensionType "eu" then
    let europeanCitizenship :=
      match extensionMap with
      | Some g =>
          match g !! "european_citizenship" with
          | Some (VString str) => str
          | _ => ""
          end
      | None => ""
      end in
    ExtensionEU {|
      ContactExtensionEU.EuropeanCitizenship := europeanCitizenship
    |}
  else ExtensionNil.

(** The type assertion to [*domain.ContactExtensionFR] and its sisters, in the
    one-result form: a panic unless the interface holds a pointer of that
    very type. *)
Definition mustExtensionFR (x : extension)
  : outcome (option ContactExtensionFR.t) :=
  match x with ExtensionFR e => Ret (Some e) | _ => Panic InterfaceConversion end.

Definition mustExtensionEU (x : extension)
  : outcome (option ContactExtensionEU.t) :=
  match x with ExtensionEU e => Ret (Some e) | _ => Panic InterfaceConversion end.

Definition mustExtensionNL (x : extension)
  : outcome (option ContactExtensionNL.t) :=
  match x with ExtensionNL e => Ret (Some e) | _ => Panic InterfaceConversion end.

Definition ExpandNewContact (contactMap : gomap)
  : outcome (option NewContact.t) :=
  match contactMap with
  | None => Ret None
  | Some _ =>
      phoneNumber ← mustString (index contactMap "phone_number");
      legalForm ← mustString (index contactMap "legal_form");
      firstname ← mustString (index contactMap "firstname");
      lastname ← mustString (index contactMap "lastname");
      email ← mustString (index contactMap "email");
      addressLine1 ← mustString (index contactMap "address_line_1");
      zip ← mustString (index contactMap "zip");
      city ← mustString (index contactMap "city");
      country ← mustString (index contactMap "country");
      let resale :=
        match asBool (index contactMap "resale") with
        | Some v => v
        | None => false
        end in
      let whoisOptIn :=
        match asBool (index contactMap "whois_opt_in") with
        | Some v => v
        | None => false
        end in
      let companyName := asString (index contactMap "company_name") in
      let emailAlt := asString (index contactMap "email_alt") in
      let faxNumber := asString (index contactMap "fax_number") in
      let addressLine2 := asString (index contactMap "address_line_2") in
      let vatIDentificationCode :=
        asString (index contactMap "vat_identification_code") in
      let companyIDentificationCode :=
        asString (index contactMap "company_identification_code") in
      let state := asString (index contactMap "state") in
      extensionFr ←
        match asMap (index contactMap "extension_fr") with
        | Some extFr => mustExtensionFR (expandContactExtension extFr "fr")
        | None => Ret None
        end;
      extensionEu ←
        match asMap (index contactMap "extension_eu") with
        | Some extEu => mustExtensionEU (expandContactExtension extEu "eu")
        | None => Ret None
        end;
      extensionNl ←
        match asMap (index contactMap "extension_nl") with
        | Some extNl => mustExtensionNL (expandContactExtension extNl "nl")
        | None => Ret None
        end;
      Ret (Some {|
        NewContact.PhoneNumber := phoneNumber;
        NewContact.LegalForm := legalForm;
        NewContact.Firstname := firstname;
        NewContact.Lastname := lastname;
        NewContact.Email := email;
        NewContact.AddressLine1 := addressLine1;
        NewContact.Zip := zip;
        NewContact.City := city;
        NewContact.Country := country;
        NewContact.Resale := resale;
        NewContact.WhoisOptIn := whoisOptIn;
        NewContact.CompanyName := companyName;
        NewContact.EmailAlt := emailAlt;
        NewContact.FaxNumber := faxNumber;
        NewContact.AddressLine2 := addressLine2;
        NewContact.VatIDentificationCode := vatIDentificationCode;
        NewContact.CompanyIDentificationCode := companyIDentificationCode;
        NewContact.State := state;
        NewContact.ExtensionFr := extensionFr;
        NewContact.ExtensionEu := extensionEu;
        NewContact.ExtensionNl := extensionNl
      |})
  end.

(** [if v, ok := m[key].(string); ok && v != "" { field = v }] on a field
    that still holds [current]. *)
Definition nonEmptyString (x : value) (current : string) : string :=
  match asString x with
  | Some v => if negb (String.eqb v "") then v else current
  | None => current
  end.

Definition ExpandContact (contactMap : gomap) : outcome (option Contact.t) :=
  match contactMap with
  | None => Ret None
  | Some _ =>
      phoneNumber ← mustString (index contactMap "phone_number");
      legalForm ← mustString (index contactMap "legal_form");
      firstname ← mustString (index contactMap "firstname");
      lastname ← mustString (index contactMap "lastname");
      email ← mustString (index contactMap "email");
      addressLine1 ← mustString (index contactMap "address_line_1");
      zip ← mustString (index contactMap "zip");
      city ← mustString (index contactMap "city");
      country ← mustString (index contactMap "country");
      let companyName := nonEmptyString (index contactMap "company_name") "" in
      let emailAlt := nonEmptyString (index contactMap "email_alt") "" in
      let faxNumber := nonEmptyString (index contactMap "fax_number") "" in
      let addressLine2 :=
        nonEmptyString (index contactMap "address_line_2") "" in
      let vatIDentificationCode :=
        nonEmptyString (index contactMap "vat_identification_code") "" in
      let companyIDentificationCode :=
        nonEmptyString (index contactMap "company_identification_code") "" in
      let lang := nonEmptyString (index contactMap "lang") "" in
      let resale :=
        match asBool (index contactMap "resale") with
        | Some v => v
        | None => false
        end in
      let state := nonEmptyString (index contactMap "state") "" in
      let whoisOptIn :=
        match asBool (index contactMap "whois_opt_in") with
        | Some v => v
        | None => false
        end in
      extensionFr ←
        match asMap (index contactMap "extension_fr") with
        | Some extFr =>
            if Nat.ltb 0 (len extFr)
            then mustExtensionFR (expandContactExtension extFr "fr")
            else Ret None
        | None => Ret None
        end;
      extensionEu ←
        match asMap (index contactMap "extension_eu") with
        | Some extEu =>
            if Nat.ltb 0 (len extEu)
            then mustExtensionEU (expandContactExtension extEu "eu")
            else Ret None
        | None => Ret None
        end;
      extensionNl ←
        match asMap (index contactMap "extension_nl") with
        | Some extNl =>
            if Nat.ltb 0 (len extNl)
            then mustExtensionNL (expandContactExtension extNl "nl")
            else Ret None
        | None => Ret None
        end;
      Ret (Some {|
        Contact.ID := "";
        Contact.PhoneNumber := phoneNumber;
        Contact.LegalForm := legalForm;
        Contact.Firstname := firstname;
        Contact.Lastname := lastname;
        Contact.Email := email;
        Contact.AddressLine1 := addressLine1;
        Contact.Zip := zip;
        Contact.City := city;
        Contact.Country := country;
        Contact.CompanyName := companyName;
        Contact.EmailAlt := emailAlt;
        Contact.FaxNumber := faxNumber;
        Contact.AddressLine2 := addressLine2;
        Contact.VatIDentificationCode := vatIDentificationCode;
        Contact.CompanyIDentificationCode := companyIDentificationCode;
        Contact.Lang := lang;
        Contact.Resale := resale;
        Contact.State := state;
        Contact.WhoisOptIn := whoisOptIn;
        Contact.ExtensionFr := extensionFr;
        Contact.ExtensionEu := extensionEu;
        Contact.ExtensionNl := extensionNl
      |})
  end.

End Expander.

(** ** Flattener *)

Section Flattener.
Context `{TimeRFC3339}.

Definition flattenContactExtensionFRIndividualInfo
  (info : option ContactExtensionFRIndividualInfo.t) : gomap :=
  match info with
  | None => None
  | Some info =>
      Some {[ "whois_opt_in" :=
                VBool (ContactExtensionFRIndividualInfo.WhoisOptIn info) ]}
  end.

Definition flattenContactExtensionFRDunsInfo
  (info : option ContactExtensionFRDunsInfo.t) : gomap :=
  match info with
  | None => None
  | Some info =>
      Some (<[ "duns_id" := VString (ContactExtensionFRDunsInfo.DunsID info) ]>
           (<[ "local_id" := VString (ContactExtensionFRDunsInfo.LocalID info) ]>
            ∅))
  end.

(** [info.PublicationJo.Format(time.RFC3339)]: [PublicationJo] is a
    [*time.Time] and [Format] has a value receiver, so the call dereferences
    the pointer. *)
Definition formatPointer (t : option Time) : outcome string :=
  match t with
  | Some t => Ret (time_Format t)
  | None => Panic NilDereference
  end.

Definition flattenContactExtensionFRAssociationInfo
  (info : option ContactExtensionFRAssociationInfo.t) : outcome gomap :=
  match info with
  | None => Ret None
  | Some info =>
      publicationJo ←
        formatPointer (ContactExtensionFRAssociationInfo.PublicationJo info);
      Ret (Some
        (<[ "publication_jo" := VString publicationJo ]>
        (<[ "publication_jo_page" :=
              VUint32 (ContactExtensionFRAssociationInfo.PublicationJoPage info) ]>
         ∅)))
  end.

Definition flattenContactExtensionFRTrademarkInfo
  (info : option ContactExtensionFRTrademarkInfo.t) : gomap :=
  match info with
  | None => None
  | Some info =>
      Some {[ "trademark_inpi" :=
                VString (ContactExtensionFRTrademarkInfo.TrademarkInpi info) ]}
  end.

Definition flattenContactExtensionFRCodeAuthAfnicInfo
  (info : option ContactExtensionFRCodeAuthAfnicInfo.t) : gomap :=
  match info with
  | None => None
  | Some info =>
      Some {[ "code_auth_afnic" :=
                VString (ContactExtensionFRCodeAuthAfnicInfo.CodeAuthAfnic info) ]}
  end.

Definition flattenContactExtensionFR (ext : option ContactExtensionFR.t)
  : outcome gomap :=
  match ext with
  | None => Ret None
  | Some ext =>
      let individualInfo :=
        flattenContactExtensionFRIndividualInfo
          (ContactExtensionFR.IndividualInfo ext) in
      let dunsInfo :=
        flattenContactExtensionFRDunsInfo (ContactExtensionFR.DunsInfo ext) in
      associationInfo ←
        flattenContactExtensionFRAssociationInfo
          (ContactExtensionFR.AssociationInfo ext);
      let trademarkInfo :=
        flattenContactExtensionFRTrademarkInfo
          (ContactExtensionFR.TrademarkInfo ext) in
      let codeAuthAfnicInfo :=
        flattenContactExtensionFRCodeAuthAfnicInfo
          (ContactExtensionFR.CodeAuthAfnicInfo ext) in
      Ret (Some
        (<[ "mode" := VString (ContactExtensionFR.Mode ext) ]>
        (<[ "individual_info" := VMap individualInfo ]>
        (<[ "duns_info" := VMap dunsInfo ]>
        (<[ "association_info" := VMap associationInfo ]>
        (<[ "trademark_info" := VMap trademarkInfo ]>
        (<[ "code_auth_afnic_info" := VMap codeAuthAfnicInfo ]>
         ∅)))))))
  end.

Definition flattenContactExtensionEU (ext : option ContactExtensionEU.t)
  : gomap :=
  match ext with
  | None => None
  | Some ext =>
      Some {[ "european_citizenship" :=
                VString (ContactExtensionEU.EuropeanCitizenship ext) ]}
  end.

Definition flattenContactExtensionNL (ext : option ContactExtensionNL.t)
  : gomap :=
  match ext with
  | None => None
  | Some ext =>
      Some (<[ "legal_form" := VString (ContactExtensionNL.LegalForm ext) ]>
           (<[ "legal_form_registration_number" :=
                 VString (ContactExtensionNL.LegalFormRegistrationNumber ext) ]>
            ∅))
  end.

(** The map literal of [flattenContact], before the extension keys. *)
Definition flattenContactFields (contact : Contact.t) : gmap string value :=
  <[ "phone_number" := VString (Contact.PhoneNumber contact) ]>
  (<[ "legal_form" := VString (Contact.LegalForm contact) ]>
  (<[ "firstname" := VString (Contact.Firstname contact) ]>
  (<[ "lastname" := VString (Contact.Lastname contact) ]>
  (<[ "email" := VString (Contact.Email contact) ]>
  (<[ "address_line_1" := VString (Contact.AddressLine1 contact) ]>
  (<[ "zip" := VString (Contact.Zip contact) ]>
  (<[ "city" := VString (Contact.City contact) ]>
  (<[ "country" := VString (Contact.Country contact) ]>
  (<[ "company_name" := VString (Contact.CompanyName contact) ]>
  (<[ "email_alt" := VString (Contact.EmailAlt contact) ]>
  (<[ "fax_number" := VString (Contact.FaxNumber contact) ]>
  (<[ "address_line_2" := VString (Contact.AddressLine2 contact) ]>
  (<[ "vat_identification_code" :=
        VString (Contact.VatIDentificationCode contact) ]>
  (<[ "company_identification_code" :=
        VString (Contact.CompanyIDentificationCode contact) ]>
  (<[ "lang" := VString (Contact.Lang contact) ]>
  (<[ "resale" := VBool (Contact.Resale contact) ]>
  (<[ "state" := VString (Contact.State contact) ]>
  (<[ "whois_opt_in" := VBool (Contact.WhoisOptIn contact) ]>
   ∅)))))))))))))))))).

Definition flattenContact (contact : option Contact.t) : outcome gomap :=
  match contact with
  | None => Ret None
  | Some contact =>
      let flattened := flattenContactFields contact in
      flattened ←
        match Contact.ExtensionFr contact with
        | Some _ =>
            extensionFr ← flattenContactExtensionFR (Contact.ExtensionFr contact);
            Ret (<[ "extension_fr" := VMap extensionFr ]> flattened)
        | None => Ret flattened
        end;
      let flattened :=
        match Contact.ExtensionEu contact with
        | Some _ =>
            <[ "extension_eu" :=
                 VMap (flattenContactExtensionEU (Contact.ExtensionEu contact)) ]>
              flattened
        | None => flattened
        end in
      let flattened :=
        match Contact.ExtensionNl contact with
        | Some _ =>
            <[ "extension_nl" :=
                 VMap (flattenContactExtensionNL (Contact.ExtensionNl contact)) ]>
              flattened
        | None => flattened
        end in
      Ret (Some flattened)
  end.

End Flattener.

(** ** Owner-contact validation *)

(** [*schema.ResourceDiff], through the two methods [CustomizeDiff] calls. *)
Module ResourceDiff.
Record t : Type := mk {
  HasChange : string -> bool;
  Get : string -> value
}.
End ResourceDiff.

(** The [CustomizeDiff] function of [ResourceOrderDomain]. [meta] carries the
    API client; [Ret tt] is the nil error. *)
Definition CustomizeDiff {Meta : Type} (d : ResourceDiff.t) (meta : Meta)
  : outcome unit :=
  hasOwnerContactID ←
    (if ResourceDiff.HasChange d "owner_contact_id" then
       id ← mustString (ResourceDiff.Get d "owner_contact_id");
       Ret (negb (String.eqb id ""))
     else Ret false);
  hasOwnerContact ←
    (if ResourceDiff.HasChange d "owner_contact" then
       contact ← mustMap (ResourceDiff.Get d "owner_contact");
       Ret (Nat.ltb 0 (len contact))
     else Ret false);
  if negb hasOwnerContactID && negb hasOwnerContact then
    Err "either `owner_contact_id` or `owner_contact` must be provided"
  else if hasOwnerContactID && hasOwnerContact then
    Err "only one of `owner_contact_id` or `owner_contact` can be provided"
  else Ret tt.

(** ** DNS record lookup *)

(** [domain.Record]: the two fields the lookup reads, and the record's [ID]. *)
Module DNSRecord.
Record t : Type := mk {
  Data : string;
  Type_ : string;
  ID : string
}.
End DNSRecord.

(** [RecordType.String()] of the SDK. *)
Definition RecordType_String (enum : string) : string :=
  if String.eqb enum "" then "unknown" else enum.

Section RecordLookup.

(** [strings.ToLower], and [flattenDomainData], which this package defines
    in another file: the lookup is parametric in both. *)
Variable strings_ToLower : string -> string.
Variable flattenDomainData : string -> string -> value.

(** Does the loop body's condition hold at [r]? The two assertions to
    [string] come first and can panic. *)
Definition recordMatches (dnsType data : string) (r : DNSRecord.t)
  : outcome bool :=
  flattedData ←
    mustString (flattenDomainData (strings_ToLower (DNSRecord.Data r))
                  (DNSRecord.Type_ r));
  flattenCurrentData ←
    mustString (flattenDomainData (strings_ToLower data) (DNSRecord.Type_ r));
  Ret (strings_HasPrefix flattedData flattenCurrentData
       && String.eqb (DNSRecord.Type_ r) dnsType).

(** The [for _, r := range records] loop, started with [currentRecord]:
    [Ret] is the value of [currentRecord] when the loop is left, by [break]
    or at the end of [records]; [Err] is the [return nil, errors.New(...)]
    inside the loop. *)
Fixpoint rangeRecords (dnsType data : string) (records : list DNSRecord.t)
  (currentRecord : option DNSRecord.t) : outcome (option DNSRecord.t) :=
  match records with
  | [] => Ret currentRecord
  | r :: rest =>
      matched ← recordMatches dnsType data r;
      if matched : bool then
        match currentRecord with
        | Some _ => Err "multiple records found with same type and data"
        | None => Ret (Some r)
        end
      else rangeRecords dnsType data rest currentRecord
  end.

Definition getRecordFromTypeAndData (dnsType data : string)
  (records : list DNSRecord.t) : outcome DNSRecord.t :=
  currentRecord ← rangeRecords dnsType data records None;
  match currentRecord with
  | None =>
      Err ("record with type " ++ RecordType_String dnsType
           ++ " and data " ++ data ++ " not found")
  | Some r => Ret r
  end.

End RecordLookup.

(** ** Sample instances

    Concrete stand-ins for the library functions the development is
    parametric in, used to run the definitions on examples. *)

Definition digitValue (c : ascii) : option Z :=
  let n := Z.of_N (N_of_ascii c) in
  if (48 <=? n)%Z && (n <=? 57)%Z then Some (n - 48)%Z else None.

(** Reads exactly [n] decimal digits. *)
Fixpoint readDigits (n : nat) (acc : Z) (s : string) : option (Z * string) :=
  match n with
  | O => Some (acc, s)
  | S n' =>
      match s with
      | String c rest =>
          match digitValue c with
          | Some d => readDigits n' (10 * acc + d)%Z rest
          | None => None
          end
      | EmptyString => None
      end
  end.

Definition expectChar (c : ascii) (s : string) : option string :=
  match s with
  | String c' rest => if Ascii.eqb c' c then Some rest else None
  | EmptyString => None
  end.

Definition inRange (lo hi x : Z) : bool := (lo <=? x)%Z && (x <=? hi)%Z.

(** Accepts the UTC timestamps [YYYY-MM-DDThh:mm:ssZ], a subset of what
    [time.Parse] accepts at layout RFC 3339. *)
Definition utcParse (s : string) : option Time :=
  '(y, s) ← readDigits 4 0 s;
  s ← expectChar "-" s;
  '(mo, s) ← readDigits 2 0 s;
  s ← expectChar "-" s;
  '(d, s) ← readDigits 2 0 s;
  s ← expectChar "T" s;
  '(h, s) ← readDigits 2 0 s;
  s ← expectChar ":" s;
  '(mi, s) ← readDigits 2 0 s;
  s ← expectChar ":" s;
  '(se, s) ← readDigits 2 0 s;
  s ← expectChar "Z" s;
  if String.eqb s "" && inRange 1 12 mo && inRange 1 31 d
     && inRange 0 23 h && inRange 0 59 mi && inRange 0 59 se
  then Some (mkTime y mo d h mi se 0 0)
  else None.

Definition digitChar (d : Z) : ascii :=
  ascii_of_N (Z.to_N (48 + d mod 10)).

Definition twoDigits (x : Z) : string :=
  String (digitChar (x / 10)) (String (digitChar x) "").

Definition utcFormat (t : Time) : string :=
  twoDigits (year t / 100) ++ twoDigits (year t) ++ "-" ++ twoDigits (month t)
  ++ "-" ++ twoDigits (day t) ++ "T" ++ twoDigits (hour t) ++ ":"
  ++ twoDigits (minute t) ++ ":" ++ twoDigits (second t) ++ "Z".

Definition utcTime : TimeRFC3339 :=
  {| time_Parse := utcParse; time_Format := utcFormat |}.

Definition asciiLower (c : ascii) : ascii :=
  let n := N_of_ascii c in
  if (65 <=? n)%N && (n <=? 90)%N then ascii_of_N (n + 32) else c.

Fixpoint asciiToLower (s : string) : string :=
  match s with
  | EmptyString => EmptyString
  | String c rest => String (asciiLower c) (asciiToLower rest)
  end.

(** The data of a record as it is, for every record type. *)
Definition plainDomainData (data : string) (recordType : string) : value :=
  VString data.

(** ** Shapes of contact maps *)

(** The keys [ExpandNewContact] and [ExpandContact] assert to [string]
    without a check. *)
Definition requiredKeys : list string :=
  [ "phone_number"; "legal_form"; "firstname"; "lastname"; "email";
    "address_line_1"; "zip"; "city"; "country" ].

(** Every required key holds a string. *)
Definition hasRequiredStrings (contactMap : gomap) : bool :=
  forallb
    (fun key =>
       match asString (index contactMap key) with
       | Some _ => true
       | None => false
       end)
    requiredKeys.

Definition extensionKeys : list string :=
  [ "extension_fr"; "extension_eu"; "extension_nl" ].

(** No extension key holds a map of length 0. *)
Definition noEmptyExtension (contactMap : gomap) : bool :=
  forallb
    (fun key =>
       match asMap (index contactMap key) with
       | Some ext => Nat.ltb 0 (len ext)
       | None => true
       end)
    extensionKeys.

(** The required keys, each with the request field it fills. *)
Definition requiredStringFields : list (string * (NewContact.t -> string)) :=
  [ ("phone_number", NewContact.PhoneNumber);
    ("legal_form", NewContact.LegalForm);
    ("firstname", NewContact.Firstname);
    ("lastname", NewContact.Lastname);
    ("email", NewContact.Email);
    ("address_line_1", NewContact.AddressLine1);
    ("zip", NewContact.Zip);
    ("city", NewContact.City);
    ("country", NewContact.Country) ].

(** The optional string keys of a contact map, each with the request field
    it fills. *)
Definition optionalStringFields
  : list (string * (NewContact.t -> option string)) :=
  [ ("company_name", NewContact.CompanyName);
    ("email_alt", NewContact.EmailAlt);
    ("fax_number", NewContact.FaxNumber);
    ("address_line_2", NewContact.AddressLine2);
    ("vat_identification_code", NewContact.VatIDentificationCode);
    ("company_identification_code", NewContact.CompanyIDentificationCode);
    ("state", NewContact.State) ].

(** A contact map with the nine required strings and nothing else. *)
Definition sampleContactMap : gmap string value :=
  <[ "phone_number" := VString "+33100000000" ]>
  (<[ "legal_form" := VString "individual" ]>
  (<[ "firstname" := VString "Ada" ]>
  (<[ "lastname" := VString "Lovelace" ]>
  (<[ "email" := VString "ada@example.com" ]>
  (<[ "address_line_1" := VString "1 rue de la Paix" ]>
  (<[ "zip" := VString "75002" ]>
  (<[ "city" := VString "Paris" ]>
  (<[ "country" := VString "FR" ]> ∅)))))))).

(** ** Shapes of contacts *)

Definition isPresent {A : Type} (pointer : option A) : bool :=
  match pointer with Some _ => true | None => false end.

(** The five info keys of a flattened French extension, each with the test
    that the extension carries that info block. *)
Definition infoPointers : list (string * (ContactExtensionFR.t -> bool)) :=
  [ ("individual_info",
      fun ext => isPresent (ContactExtensionFR.IndividualInfo ext));
    ("duns_info", fun ext => isPresent (ContactExtensionFR.DunsInfo ext));
    ("association_info",
      fun ext => isPresent (ContactExtensionFR.AssociationInfo ext));
    ("trademark_info",
      fun ext => isPresent (ContactExtensionFR.TrademarkInfo ext));
    ("code_auth_afnic_info",
      fun ext => isPresent (ContactExtensionFR.CodeAuthAfnicInfo ext)) ].

(** The association info of the extension, when there is one, has a
    publication date. *)
Definition hasPublicationDate (ext : option ContactExtensionFR.t) : bool :=
  match ext with
  | Some ext =>
      match ContactExtensionFR.AssociationInfo ext with
      | Some info =>
          isPresent (ContactExtensionFRAssociationInfo.PublicationJo info)
      | None => true
      end
  | None => true
  end.

(** The property that a nil info block leaves its key out of the flattened
    French extension. *)
Definition omitsNilInfoKeys `{TimeRFC3339} (ext : ContactExtensionFR.t)
  : Prop :=
  forall g : gmap string value,
    flattenContactExtensionFR (Some ext) = Ret (Some g) ->
    Forall (fun '(key, present) => present ext = false -> g !! key = None)
      infoPointers.

(** The contact with the identifier the registrar assigned set back to the
    zero value. *)
Definition withoutID (contact : Contact.t) : Contact.t :=
  {| Contact.ID := "";
     Contact.PhoneNumber := Contact.PhoneNumber contact;
     Contact.LegalForm := Contact.LegalForm contact;
     Contact.Firstname := Contact.Firstname contact;
     Contact.Lastname := Contact.Lastname contact;
     Contact.Email := Contact.Email contact;
     Contact.AddressLine1 := Contact.AddressLine1 contact;
     Contact.Zip := Contact.Zip contact;
     Contact.City := Contact.City contact;
     Contact.Country := Contact.Country contact;
     Contact.CompanyName := Contact.CompanyName contact;
     Contact.EmailAlt := Contact.EmailAlt contact;
     Contact.FaxNumber := Contact.FaxNumber contact;
     Contact.AddressLine2 := Contact.AddressLine2 contact;
     Contact.VatIDentificationCode := Contact.VatIDentificationCode contact;
     Contact.CompanyIDentificationCode :=
       Contact.CompanyIDentificationCode contact;
     Contact.Lang := Contact.Lang contact;
     Contact.Resale := Contact.Resale contact;
     Contact.State := Contact.State contact;
     Contact.WhoisOptIn := Contact.WhoisOptIn contact;
     Contact.ExtensionFr := Contact.ExtensionFr contact;
     Contact.ExtensionEu := Contact.ExtensionEu contact;
     Contact.ExtensionNl := Contact.ExtensionNl contact |}.

(** The new-contact request that carries the field values of a contact
    literally: every optional string is set, and there is no extension. *)
Definition literalNewContact (contact : Contact.t) : NewContact.t :=
  {| NewContact.PhoneNumber := Contact.PhoneNumber contact;
     NewContact.LegalForm := Contact.LegalForm contact;
     NewContact.Firstname := Contact.Firstname contact;
     NewContact.Lastname := Contact.Lastname contact;
     NewContact.Email := Contact.Email contact;
     NewContact.AddressLine1 := Contact.AddressLine1 contact;
     NewContact.Zip := Contact.Zip contact;
     NewContact.City := Contact.City contact;
     NewContact.Country := Contact.Country contact;
     NewContact.Resale := Contact.Resale contact;
     NewContact.WhoisOptIn := Contact.WhoisOptIn contact;
     NewContact.CompanyName := Some (Contact.CompanyName contact);
     NewContact.EmailAlt := Some (Contact.EmailAlt contact);
     NewContact.FaxNumber := Some (Contact.FaxNumber contact);
     NewContact.AddressLine2 := Some (Contact.AddressLine2 contact);
     NewContact.VatIDentificationCode :=
       Some (Contact.VatIDentificationCode contact);
     NewContact.CompanyIDentificationCode :=
       Some (Contact.CompanyIDentificationCode contact);
     NewContact.State := Some (Contact.State contact);
     NewContact.ExtensionFr := None;
     NewContact.ExtensionEu := None;
     NewContact.ExtensionNl := None |}.

(** A contact as the registrar returns it, with the given extensions. *)
Definition sampleContact (extensionFr : option ContactExtensionFR.t)
  (extensionEu : option ContactExtensionEU.t)
  (extensionNl : option ContactExtensionNL.t) : Contact.t :=
  {| Contact.ID := "contact-9";
     Contact.PhoneNumber := "+33100000000";
     Contact.LegalForm := "individual";
     Contact.Firstname := "Ada";
     Contact.Lastname := "Lovelace";
     Contact.Email := "ada@example.com";
     Contact.AddressLine1 := "1 rue de la Paix";
     Contact.Zip := "75002";
     Contact.City := "Paris";
     Contact.Country := "FR";
     Contact.CompanyName := "";
     Contact.EmailAlt := "";
     Contact.FaxNumber := "";
     Contact.AddressLine2 := "";
     Contact.VatIDentificationCode := "";
     Contact.CompanyIDentificationCode := "";
     Contact.Lang := "fr_FR";
     Contact.Resale := false;
     Contact.State := "";
     Contact.WhoisOptIn := true;
     Contact.ExtensionFr := extensionFr;
     Contact.ExtensionEu := extensionEu;
     Contact.ExtensionNl := extensionNl |}.

(** A French extension with the given association info and no other block. *)
Definition sampleExtensionFR
  (associationInfo : option ContactExtensionFRAssociationInfo.t)
  : ContactExtensionFR.t :=
  ContactExtensionFR.mk "association" None None associationInfo None None.

(** ** Counting and further shapes *)

(** Occurrences of a byte in a string. *)
Fixpoint count (c : ascii) (s : string) : nat :=
  match s with
  | EmptyString => 0
  | String c' rest => (if Ascii.eqb c' c then 1 else 0) + count c rest
  end.

(** The string keys [ExpandContact] copies only when they are not empty. *)
Definition optionalContactKeys : list string :=
  [ "company_name"; "email_alt"; "fax_number"; "address_line_2";
    "vat_identification_code"; "company_identification_code"; "lang";
    "state" ].

(** Every key that [expandContactExtension] reads, in any of the three
    extension types. *)
Definition extensionFieldKeys : list string :=
  [ "mode"; "individual_info"; "duns_info"; "association_info";
    "trademark_info"; "code_auth_afnic_info"; "legal_form";
    "legal_form_registration_number"; "european_citizenship" ].

(** How many of the three extensions a contact carries. *)
Definition extensionCount (contact : Contact.t) : nat :=
  (if isPresent (Contact.ExtensionFr contact) then 1 else 0)
  + (if isPresent (Contact.ExtensionEu contact) then 1 else 0)
  + (if isPresent (Contact.ExtensionNl contact) then 1 else 0).

(** A French extension after flattening and expanding again: every info
    block is there, a nil one as its zero value; the publication date went
    through [Format] and [Parse], and the page is back at 0. *)
Definition reexpandedExtensionFR `{TimeRFC3339} (ext : ContactExtensionFR.t)
  : ContactExtensionFR.t :=
  {| ContactExtensionFR.Mode := ContactExtensionFR.Mode ext;
     ContactExtensionFR.IndividualInfo :=
       Some (default ContactExtensionFRIndividualInfo.zero
               (ContactExtensionFR.IndividualInfo ext));
     ContactExtensionFR.DunsInfo :=
       Some (default ContactExtensionFRDunsInfo.zero
               (ContactExtensionFR.DunsInfo ext));
     ContactExtensionFR.AssociationInfo :=
       Some match ContactExtensionFR.AssociationInfo ext with
            | Some info =>
                ContactExtensionFRAssociationInfo.mk
                  (match
                     ContactExtensionFRAssociationInfo.PublicationJo info
                   with
                   | Some date => time_Parse (time_Format date)
                   | None => None
                   end) 0
            | None => ContactExtensionFRAssociationInfo.zero
            end;
     ContactExtensionFR.TrademarkInfo :=
       Some (default ContactExtensionFRTrademarkInfo.zero
               (ContactExtensionFR.TrademarkInfo ext));
     ContactExtensionFR.CodeAuthAfnicInfo :=
       Some (default ContactExtensionFRCodeAuthAfnicInfo.zero
               (ContactExtensionFR.CodeAuthAfnicInfo ext)) |}.

(** ** Reverse names *)

(** [strings.Join(elems, sep)] *)
Fixpoint strings_Join (elems : list string) (sep : string) : string :=
  match elems with
  | [] => ""
  | [a] => a
  | a :: rest => a ++ sep ++ strings_Join rest sep
  end.

(** How a loop over a slice ends. *)
Inductive looped (A : Type) : Type :=
| Completed (a : A)
| IndexOutOfRange
| OutOfFuel.

Arguments Completed {A} a.
Arguments IndexOutOfRange {A}.
Arguments OutOfFuel {A}.

(** [parts[i]] for an [int] index. *)
Definition elementAt (parts : list string) (i : Z) : option string :=
  if (i <? 0)%Z then None else parts !! Z.to_nat i.

(** [parts[i], parts[j] = parts[j], parts[i]] *)
Definition swapElements (parts : list string) (i j : Z)
  : looped (list string) :=
  match elementAt parts j, elementAt parts i with
  | Some pj, Some pi =>
      Completed (<[ Z.to_nat j := pi ]> (<[ Z.to_nat i := pj ]> parts))
  | _, _ => IndexOutOfRange
  end.

(** [for ; i < j; i, j = i+1, j-1 { swap }], with a bound on the number of
    iterations. *)
Fixpoint reverseLoop (fuel : nat) (parts : list string) (i j : Z)
  : looped (list string) :=
  if (i <? j)%Z then
    match fuel with
    | O => OutOfFuel
    | S fuel' =>
        match swapElements parts i j with
        | Completed parts' => reverseLoop fuel' parts' (i + 1) (j - 1)
        | IndexOutOfRange => IndexOutOfRange
        | OutOfFuel => OutOfFuel
        end
    end
  else Completed parts.

Definition FindDefaultReverse (address : string) : looped string :=
  let parts := strings_Split address "." in
  match reverseLoop (length parts) parts 0 (Z.of_nat (length parts) - 1) with
  | Completed parts' =>
      Completed (strings_Join parts' "-" ++ ".instances.scw.cloud")
  | IndexOutOfRange => IndexOutOfRange
  | OutOfFuel => OutOfFuel
  end.

(** ** Attributes of the stored state *)

(** The dynamic types that the flatteners of the TLD and of the DNS zones
    store under [interface{}]: strings, booleans and integers of the SDK
    structs, their named string types, string pointers, string slices,
    string maps and nested maps. [None] is a nil pointer, slice or map. *)
#[warnings="-register-all"]
Inductive attribute : Type :=
| AString (s : string)
| ABool (b : bool)
| AUint32 (n : Z)
| AInt32 (n : Z)
| AInt64 (n : Z)
| AEnum (tag : string)
| AStringPointer (s : option string)
| AStrings (l : option (list string))
| AStringMap (m : option (gmap string string))
| AMap (m : option (gmap string attribute)).

(** [scw.Money], [domain.TldOffer], [domain.Tld] and [domain.DNSZone], with
    the fields the flatteners read. *)
Module Money.
Record t : Type := mk { CurrencyCode : string; Units : Z; Nanos : Z }.
End Money.

Module TldOffer.
Record t : Type := mk {
  Action : string;
  OperationPath : string;
  Price : option Money.t
}.
End TldOffer.

Module Tld.
Record t : Type := mk {
  Name : string;
  DnssecSupport : bool;
  DurationInYearsMin : Z;
  DurationInYearsMax : Z;
  IDnSupport : bool;
  Offers : option (gmap string (option TldOffer.t));
  Specifications : option (gmap string string)
}.
End Tld.

Module DNSZone.
Record t : Type := mk {
  Domain : string;
  Subdomain : string;
  Ns : option (list string);
  NsDefault : option (list string);
  NsMaster : option (list string);
  Status : string;
  Message : option string;
  UpdatedAt : option Time;
  ProjectID : string
}.
End DNSZone.

(** The map literal that [flattenTldOffers] stores for an offer. *)
Definition offerLiteral (offer : TldOffer.t) (price : Money.t)
  : gmap string attribute :=
  <[ "action" := AEnum (TldOffer.Action offer) ]>
  (<[ "operation_path" := AString (TldOffer.OperationPath offer) ]>
  (<[ "price" :=
        AMap (Some
          (<[ "currency_code" := AString (Money.CurrencyCode price) ]>
          (<[ "units" := AInt64 (Money.Units price) ]>
          (<[ "nanos" := AInt32 (Money.Nanos price) ]> ∅)))) ]>
   ∅)).

(** The body of the loop of [flattenTldOffers]: [offer] is a pointer, and so
    is its price. *)
Definition flattenTldOffer (offer : option TldOffer.t)
  : outcome (gmap string attribute) :=
  match offer with
  | None => Panic NilDereference
  | Some offer =>
      match TldOffer.Price offer with
      | None => Panic NilDereference
      | Some price => Ret (offerLiteral offer price)
      end
  end.

(** The loop ranges over a Go map, in no fixed order; every order gives the
    same map, or the same panic. *)
Definition flattenTldOffers (offers : option (gmap string (option TldOffer.t)))
  : outcome (option (gmap string attribute)) :=
  match offers with
  | None => Ret None
  | Some offers =>
      flattenedOffers ←
        map_fold
          (fun key offer (flattenedOffers : outcome (gmap string attribute)) =>
             flattenedOffers ← flattenedOffers;
             flattened ← flattenTldOffer offer;
             Ret (<[ key := AMap (Some flattened) ]> flattenedOffers))
          (Ret ∅) offers;
      Ret (Some flattenedOffers)
  end.

Definition flattenTLD (tld : option Tld.t)
  : outcome (option (gmap string attribute)) :=
  match tld with
  | None => Ret None
  | Some tld =>
      offers ← flattenTldOffers (Tld.Offers tld);
      Ret (Some
        (<[ "name" := AString (Tld.Name tld) ]>
        (<[ "dnssec_support" := ABool (Tld.DnssecSupport tld) ]>
        (<[ "duration_in_years_min" := AUint32 (Tld.DurationInYearsMin tld) ]>
        (<[ "duration_in_years_max" := AUint32 (Tld.DurationInYearsMax tld) ]>
        (<[ "idn_support" := ABool (Tld.IDnSupport tld) ]>
        (<[ "offers" := AMap offers ]>
        (<[ "specifications" := AStringMap (Tld.Specifications tld) ]>
         ∅))))))))
  end.

(** The offer is there and has its price. *)
Definition isPriced (offer : option TldOffer.t) : bool :=
  match offer with
  | Some offer => isPresent (TldOffer.Price offer)
  | None => false
  end.

(** What a priced offer is stored as. *)
Definition pricedOffer (offer : option TldOffer.t) : option attribute :=
  match offer with
  | Some offer =>
      match TldOffer.Price offer with
      | Some price => Some (AMap (Some (offerLiteral offer price)))
      | None => None
      end
  | None => None
  end.

(** Every offer of the map is there and has its price. *)
Definition allPriced (offers : gmap string (option TldOffer.t)) : bool :=
  bool_decide (map_Forall (fun _ offer => isPriced offer = true) offers).

(** What the loop of [flattenTldOffers] comes to. *)
Definition foldedOffers (offers : gmap string (option TldOffer.t))
  : outcome (gmap string attribute) :=
  if allPriced offers then Ret (omap pricedOffer offers)
  else Panic NilDereference.

(** ** DNS zones *)

Section ZoneFlattener.
Context `{TimeRFC3339}.

(** The map literal that [flattenDNSZones] appends for a zone. *)
Definition zoneLiteral (zone : DNSZone.t) (updatedAt : string)
  : gmap string attribute :=
  <[ "domain" := AString (DNSZone.Domain zone) ]>
  (<[ "subdomain" := AString (DNSZone.Subdomain zone) ]>
  (<[ "ns" := AStrings (DNSZone.Ns zone) ]>
  (<[ "ns_default" := AStrings (DNSZone.NsDefault zone) ]>
  (<[ "ns_master" := AStrings (DNSZone.NsMaster zone) ]>
  (<[ "status" := AEnum (DNSZone.Status zone) ]>
  (<[ "message" := AStringPointer (DNSZone.Message zone) ]>
  (<[ "updated_at" := AString updatedAt ]>
  (<[ "project_id" := AString (DNSZone.ProjectID zone) ]> ∅)))))))).

(** [append(zones, elem)], which allocates when [zones] is nil. *)
Definition appendZone (zones : option (list (gmap string attribute)))
  (elem : gmap string attribute) : option (list (gmap string attribute)) :=
  Some (default [] zones ++ [elem])%list.

(** The [for _, zone := range dnsZones] loop, started with [zones]. *)
Fixpoint rangeZones (dnsZones : list (option DNSZone.t))
  (zones : option (list (gmap string attribute)))
  : outcome (option (list (gmap string attribute))) :=
  match dnsZones with
  | [] => Ret zones
  | zone :: rest =>
      match zone with
      | None => Panic NilDereference
      | Some zone =>
          updatedAt ← formatPointer (DNSZone.UpdatedAt zone);
          rangeZones rest (appendZone zones (zoneLiteral zone updatedAt))
      end
  end.

Definition flattenDNSZones (dnsZones : option (list (option DNSZone.t)))
  : outcome (option (list (gmap string attribute))) :=
  match dnsZones with
  | None => Ret None
  | Some dnsZones => rangeZones dnsZones None
  end.

(** The zone is there and has its date. *)
Definition isDated (zone : option DNSZone.t) : bool :=
  match zone with
  | Some zone => isPresent (DNSZone.UpdatedAt zone)
  | None => false
  end.

(** [m] is the literal of the zone, with its date formatted. *)
Definition datedZone (zone : option DNSZone.t) (m : gmap string attribute)
  : Prop :=
  exists z date,
    zone = Some z /\ DNSZone.UpdatedAt z = Some date /\
    m = zoneLiteral z (time_Format date).

End ZoneFlattener.

(** ** Create path *)

(** [*schema.ResourceData], through the methods the create path calls, and
    the identifier it carries. *)
Module ResourceData.
Record t : Type := mk {
  Get : string -> value;
  GetOk : string -> value * bool;
  Id : string
}.
Definition SetId (id : string) (d : t) : t := mk (Get d) (GetOk d) id.
End ResourceData.

Module RegistrarAPIBuyDomainsRequest.
Record t : Type := mk {
  Domains : list string;
  DurationInYears : Z;
  ProjectID : string;
  OwnerContactID : option string;
  OwnerContact : option NewContact.t;
  AdministrativeContactID : option string;
  AdministrativeContact : option NewContact.t;
  TechnicalContactID : option string;
  TechnicalContact : option NewContact.t
}.
End RegistrarAPIBuyDomainsRequest.

(** [domain.OrderResponse], with the field the create path reads. *)
Module OrderResponse.
Record t : Type := mk { ProjectID : string }.
End OrderResponse.

(** [x.(int)] *)
Definition mustInt (x : value) : outcome Z :=
  match x with VInt n => Ret n | _ => Panic InterfaceConversion end.

(** [uint32(n)] for [n int]. *)
Definition uint32_of_int (n : Z) : Z := (n mod 2 ^ 32)%Z.

Section CreatePath.
Context `{TimeRFC3339}.

(** The block that [resourceOrderDomainCreate] writes once for each of the
    owner, administrative and technical contacts: the contact ID when it is
    not empty, else the expanded inline contact when [GetOk] finds one. *)
Definition contactOfRole (d : ResourceData.t) (idKey contactKey : string)
  : outcome (option string * option NewContact.t) :=
  contactID ← mustString (ResourceData.Get d idKey);
  if negb (String.eqb contactID "") then Ret (Some contactID, None)
  else
    let '(contact, ok) := ResourceData.GetOk d contactKey in
    if ok : bool then
      contactMap ← mustMap contact;
      newContact ← ExpandNewContact contactMap;
      Ret (None, newContact)
    else Ret (None, None).

(** The request that [resourceOrderDomainCreate] builds before it calls
    the API, with the domain name it read. *)
Definition buyDomainsRequest (d : ResourceData.t)
  : outcome (string * RegistrarAPIBuyDomainsRequest.t) :=
  projectID ← mustString (ResourceData.Get d "project_id");
  domainName ← mustString (ResourceData.Get d "domain_name");
  durationInYears ← mustInt (ResourceData.Get d "duration_in_years");
  owner ← contactOfRole d "owner_contact_id" "owner_contact";
  admin ← contactOfRole d "administrative_contact_id" "administrative_contact";
  tech ← contactOfRole d "technical_contact_id" "technical_contact";
  Ret (domainName, {|
    RegistrarAPIBuyDomainsRequest.Domains := [domainName];
    RegistrarAPIBuyDomainsRequest.DurationInYears :=
      uint32_of_int durationInYears;
    RegistrarAPIBuyDomainsRequest.ProjectID := projectID;
    RegistrarAPIBuyDomainsRequest.OwnerContactID := fst owner;
    RegistrarAPIBuyDomainsRequest.OwnerContact := snd owner;
    RegistrarAPIBuyDomainsRequest.AdministrativeContactID := fst admin;
    RegistrarAPIBuyDomainsRequest.AdministrativeContact := snd admin;
    RegistrarAPIBuyDomainsRequest.TechnicalContactID := fst tech;
    RegistrarAPIBuyDomainsRequest.TechnicalContact := snd tech
  |}).

(** [resourceOrderDomainCreate], over the API call and the read that ends
    it. A result pairs the resource data as the call leaves it with the
    diagnostics, [Ret tt] for none. *)
Definition resourceOrderDomainCreate
  (BuyDomains : RegistrarAPIBuyDomainsRequest.t -> OrderResponse.t + string)
  (resourceOrderDomainsRead : ResourceData.t -> ResourceData.t * outcome unit)
  (d : ResourceData.t) : ResourceData.t * outcome unit :=
  match buyDomainsRequest d with
  | Ret (domainName, request) =>
      match BuyDomains request with
      | inr err => (d, Err err)
      | inl resp =>
          resourceOrderDomainsRead
            (ResourceData.SetId
               (resourceOrderDomainID (OrderResponse.ProjectID resp) domainName)
               d)
      end
  | Err err => (d, Err err)
  | Panic p => (d, Panic p)
  end.

(** A role holds a contact ID, or an inline contact, or nothing. *)
Definition exclusiveRole (role : option string * option NewContact.t) : Prop :=
  match role with
  | (Some contactID, None) => contactID <> ""
  | (None, _) => True
  | (Some _, Some _) => False
  end.

End CreatePath.

(** The configuration of a domain bought for an existing owner contact. *)
Definition sampleResourceData : ResourceData.t :=
  ResourceData.mk
    (fun key =>
       if String.eqb key "project_id" then VString "proj-1"
       else if String.eqb key "domain_name" then VString "example.com"
       else if String.eqb key "duration_in_years" then VInt 2
       else if String.eqb key "owner_contact_id" then VString "contact-9"
       else VString "")
    (fun _ => (VMap None, false))
    "".

(** ** Theorems *)

Example extractDomainFromID_sample :
  extractDomainFromID "proj-1/example.com" = Ret "example.com".
Proof. reflexivity. Qed.

Example strings_Split_samples :
  strings_Split "" "/" = [""] /\
  strings_Split "a/b/c" "/" = ["a"; "b"; "c"] /\
  strings_Split "/x/" "/" = [""; "x"; ""].
Proof. repeat split. Qed.

Example utcParse_samples :
  utcParse "2024-03-01T10:20:30Z" = Some (mkTime 2024 3 1 10 20 30 0 0) /\
  utcFormat (mkTime 2024 3 1 10 20 30 0 0) = "2024-03-01T10:20:30Z" /\
  utcParse "not-a-date" = None.
Proof. repeat split. Qed.

(** *** Identity codec *)

Lemma append_cons (c : ascii) (a b : string) :
  String c a ++ b = String c (a ++ b).
Proof. reflexivity. Qed.

Lemma append_assoc (a b c : string) : (a ++ b) ++ c = a ++ (b ++ c).
Proof.
  induction a as [|x a IH]; [reflexivity |].
  now rewrite !append_cons, IH.
Qed.

Lemma append_empty_r (a : string) : a ++ "" = a.
Proof.
  induction a as [|x a IH]; [reflexivity |].
  now rewrite append_cons, IH.
Qed.

(** A string without the separator is one segment. *)
Lemma split_from_no_sep (sep : ascii) (s cur : string) :
  contains sep s = false -> split_from cur s sep = [cur ++ s].
Proof.
  revert cur; induction s as [|c s IH]; intros cur Hs; simpl in *.
  - now rewrite append_empty_r.
  - apply orb_false_iff in Hs as [Hc Hs]. rewrite Hc, (IH _ Hs).
    now rewrite append_assoc.
Qed.

(** The first separator ends the first segment. *)
Lemma split_from_sep (sep : ascii) (a b cur : string) :
  contains sep a = false ->
  split_from cur (a ++ String sep b) sep = (cur ++ a) :: split_from "" b sep.
Proof.
  revert cur; induction a as [|c a IH]; intros cur Ha.
  - change ("" ++ String sep b) with (String sep b). simpl.
    now rewrite Ascii.eqb_refl, append_empty_r.
  - rewrite append_cons. simpl in *.
    apply orb_false_iff in Ha as [Hc Ha]. rewrite Hc, (IH _ Ha).
    now rewrite append_assoc.
Qed.

(** C7. Identity codec round trip: decoding [projectID ++ "/" ++ domainName]
    succeeds and returns [domainName] whenever neither string contains a
    slash. *)
Theorem extractDomainFromID_roundtrip (projectID domainName : string) :
  contains "/" projectID = false ->
  contains "/" domainName = false ->
  extractDomainFromID (resourceOrderDomainID projectID domainName)
  = Ret domainName.
Proof.
  intros Hp Hd. unfold extractDomainFromID, resourceOrderDomainID, strings_Split.
  change ("/" ++ domainName) with (String "/" domainName).
  rewrite (split_from_sep _ _ _ _ Hp), (split_from_no_sep _ _ _ Hd).
  reflexivity.
Qed.

Lemma extractDomainFromID_roundtrip_witness :
  contains "/" "proj-1" = false /\
  contains "/" "example.com" = false /\
  extractDomainFromID (resourceOrderDomainID "proj-1" "example.com")
  = Ret "example.com".
Proof.
  split; [reflexivity | split; [reflexivity |]].
  apply (extractDomainFromID_roundtrip "proj-1" "example.com"); reflexivity.
Defined.

(** C8. Identity codec rejection: decoding returns the second segment when
    splitting on the slash gives exactly two segments, and otherwise the
    invalid-identifier error that ends with the offending string; the
    identifiers [onlyonepart], [a/b/c] and the empty string are rejected. *)
Theorem extractDomainFromID_segments :
  (forall id : string,
     extractDomainFromID id =
       match strings_Split id "/" with
       | [_; domainName] => Ret domainName
       | _ =>
           Err ("invalid ID format, expected 'projectID/domainName', got: "
                ++ id)
       end) /\
  extractDomainFromID "onlyonepart"
  = Err "invalid ID format, expected 'projectID/domainName', got: onlyonepart" /\
  extractDomainFromID "a/b/c"
  = Err "invalid ID format, expected 'projectID/domainName', got: a/b/c" /\
  extractDomainFromID ""
  = Err "invalid ID format, expected 'projectID/domainName', got: ".
Proof.
  split; [| repeat split].
  intros id. unfold extractDomainFromID.
  destruct (strings_Split id "/") as [|p [|dn [|x rest]]]; reflexivity.
Qed.

(** *** DNS record lookup *)

Section RecordLookupFacts.
Variable strings_ToLower : string -> string.
Variable flattenDomainData : string -> string -> value.

#[local] Abbreviation matches :=
  (recordMatches strings_ToLower flattenDomainData).
#[local] Abbreviation range :=
  (rangeRecords strings_ToLower flattenDomainData).
#[local] Abbreviation lookup :=
  (getRecordFromTypeAndData strings_ToLower flattenDomainData).

Lemma recordMatches_no_error (dnsType data : string) (r : DNSRecord.t) :
  forall msg, matches dnsType data r <> Err msg.
Proof.
  intros msg. unfold recordMatches.
  destruct (flattenDomainData (strings_ToLower (DNSRecord.Data r)) _);
    simpl; try discriminate.
  destruct (flattenDomainData (strings_ToLower data) _); simpl; discriminate.
Qed.

(** Started with no current record, the loop never reaches its
    [errors.New]: the first match leaves the loop at once. *)
Lemma rangeRecords_no_error (dnsType data : string)
  (records : list DNSRecord.t) :
  forall msg, range dnsType data records None <> Err msg.
Proof.
  intros msg. induction records as [|r rest IH]; simpl; [discriminate |].
  pose proof (recordMatches_no_error dnsType data r) as Hm.
  destruct (matches dnsType data r) as [[|]|e|p]; simpl.
  - discriminate.
  - exact IH.
  - now destruct (Hm e).
  - discriminate.
Qed.

(** The first record that matches is the one returned, whatever follows. *)
Lemma getRecordFromTypeAndData_first_match (dnsType data : string)
  (r : DNSRecord.t) (rest : list DNSRecord.t) :
  matches dnsType data r = Ret true ->
  lookup dnsType data (r :: rest) = Ret r.
Proof.
  intros Hr. unfold getRecordFromTypeAndData. simpl.
  now rewrite Hr.
Qed.

(** When no record matches, the lookup reports that none was found. *)
Lemma getRecordFromTypeAndData_not_found (dnsType data : string)
  (records : list DNSRecord.t) :
  Forall (fun r => matches dnsType data r = Ret false) records ->
  lookup dnsType data records =
    Err ("record with type " ++ RecordType_String dnsType
         ++ " and data " ++ data ++ " not found").
Proof.
  intros Hall. unfold getRecordFromTypeAndData.
  assert (range dnsType data records None = Ret None) as ->; [| reflexivity].
  induction Hall as [|r rest Hr _ IH]; simpl; [reflexivity |].
  now rewrite Hr.
Qed.

Lemma getRecordFromTypeAndData_never_multiple (dnsType data : string)
  (records : list DNSRecord.t) :
  lookup dnsType data records
  <> Err "multiple records found with same type and data".
Proof.
  unfold getRecordFromTypeAndData.
  pose proof (rangeRecords_no_error dnsType data records) as Hr.
  destruct (range dnsType data records None) as [[r|]|e|p]; simpl.
  - discriminate.
  - intros Heq. apply (f_equal (fun o =>
      match o with Err (String c _) => Some c | _ => None end)) in Heq.
    discriminate Heq.
  - now destruct (Hr e).
  - discriminate.
Qed.

End RecordLookupFacts.

(** C10. Duplicate-record detection, evaluated on the code: for two records
    of type [A] with the same data the lookup returns the first of them, and
    on no input at all does it return the duplicate-match error. *)
Theorem getRecordFromTypeAndData_duplicates :
  getRecordFromTypeAndData asciiToLower plainDomainData "A" "1.2.3.4"
    [ DNSRecord.mk "1.2.3.4" "A" "rec-1"; DNSRecord.mk "1.2.3.4" "A" "rec-2" ]
  = Ret (DNSRecord.mk "1.2.3.4" "A" "rec-1") /\
  (forall (strings_ToLower : string -> string)
          (flattenDomainData : string -> string -> value)
          (dnsType data : string) (records : list DNSRecord.t),
     getRecordFromTypeAndData strings_ToLower flattenDomainData
       dnsType data records
     <> Err "multiple records found with same type and data").
Proof.
  split; [reflexivity |].
  intros. apply getRecordFromTypeAndData_never_multiple.
Qed.

(** *** Owner-contact validation *)

(** C6. Owner-contact precedence: with [owner_contact_id] a string and
    [owner_contact] a map, the validator returns nil exactly when one of
    the two is changed and non-empty and the other is not; it returns the
    "only one" error when both are, the "either" error when neither is, and
    its result does not depend on the API client. *)
Theorem CustomizeDiff_owner_contact {Meta : Type} (d : ResourceDiff.t)
  (meta : Meta) (id : string) (contact : gomap) :
  ResourceDiff.Get d "owner_contact_id" = VString id ->
  ResourceDiff.Get d "owner_contact" = VMap contact ->
  let hasOwnerContactID :=
    ResourceDiff.HasChange d "owner_contact_id" && negb (String.eqb id "") in
  let hasOwnerContact :=
    ResourceDiff.HasChange d "owner_contact" && Nat.ltb 0 (len contact) in
  CustomizeDiff d meta =
    match hasOwnerContactID, hasOwnerContact with
    | true, true =>
        Err "only one of `owner_contact_id` or `owner_contact` can be provided"
    | false, false =>
        Err "either `owner_contact_id` or `owner_contact` must be provided"
    | _, _ => Ret tt
    end /\
  (CustomizeDiff d meta = Ret tt <->
   xorb hasOwnerContactID hasOwnerContact = true) /\
  (forall (Meta' : Type) (meta' : Meta'),
     CustomizeDiff d meta' = CustomizeDiff d meta).
Proof.
  intros Hid Hcontact hasID hasContact.
  assert (forall (M : Type) (m : M), CustomizeDiff d m =
    match hasID, hasContact with
    | true, true =>
        Err "only one of `owner_contact_id` or `owner_contact` can be provided"
    | false, false =>
        Err "either `owner_contact_id` or `owner_contact` must be provided"
    | _, _ => Ret tt
    end) as Heq.
  { intros M m. unfold CustomizeDiff, hasID, hasContact.
    rewrite Hid, Hcontact.
    destruct (ResourceDiff.HasChange d "owner_contact_id"),
             (ResourceDiff.HasChange d "owner_contact"),
             (String.eqb id "") eqn:Eid, (Nat.ltb 0 (len contact)) eqn:Elen;
      simpl; rewrite ?Eid, ?Elen; reflexivity. }
  split; [apply Heq |]. split.
  - rewrite Heq. destruct hasID, hasContact; simpl; split;
      intros; try discriminate; reflexivity.
  - intros M' m'. now rewrite !Heq.
Qed.

Lemma CustomizeDiff_owner_contact_witness :
  let d := ResourceDiff.mk
    (fun key => String.eqb key "owner_contact_id")
    (fun key => if String.eqb key "owner_contact_id" then VString "ID1"
                else VMap (Some ∅)) in
  CustomizeDiff d tt = Ret tt /\
  (CustomizeDiff d tt = Ret tt <-> xorb true false = true) /\
  (forall (Meta' : Type) (meta' : Meta'),
     CustomizeDiff d meta' = CustomizeDiff d tt).
Proof.
  intros d.
  exact (CustomizeDiff_owner_contact d tt "ID1" (Some ∅) eq_refl eq_refl).
Defined.

(** *** New-contact expansion *)

Section ExpanderFacts.
Context `{TimeRFC3339}.

Lemma len_positive_not_nil (m : gomap) :
  Nat.ltb 0 (len m) = true ->
  bool_decide (m = None) || Nat.eqb (len m) 0 = false.
Proof.
  intros Hlen. destruct m as [g|]; [| discriminate Hlen].
  rewrite bool_decide_eq_false_2 by discriminate. simpl in *.
  destruct (size g); [discriminate Hlen | reflexivity].
Qed.

Lemma expandContactExtension_fr (ext : gomap) :
  Nat.ltb 0 (len ext) = true ->
  exists e, expandContactExtension ext "fr" = ExtensionFR e.
Proof.
  intros Hlen. unfold expandContactExtension.
  rewrite (len_positive_not_nil _ Hlen). simpl. eauto.
Qed.

Lemma expandContactExtension_eu (ext : gomap) :
  Nat.ltb 0 (len ext) = true ->
  exists e, expandContactExtension ext "eu" = ExtensionEU e.
Proof.
  intros Hlen. unfold expandContactExtension.
  rewrite (len_positive_not_nil _ Hlen). simpl. eauto.
Qed.

Lemma expandContactExtension_nl (ext : gomap) :
  Nat.ltb 0 (len ext) = true ->
  exists e, expandContactExtension ext "nl" = ExtensionNL e.
Proof.
  intros Hlen. unfold expandContactExtension.
  rewrite (len_positive_not_nil _ Hlen). simpl. eauto.
Qed.

(** A map of length 0, nil or not, expands to the nil interface. *)
Lemma expandContactExtension_empty (ext : gomap) (extensionType : string) :
  len ext = 0 -> expandContactExtension ext extensionType = ExtensionNil.
Proof.
  intros Hlen. unfold expandContactExtension. rewrite Hlen.
  now rewrite orb_true_r.
Qed.

Ltac case_index H :=
  match type of H with
  | context [index ?m ?key] =>
      destruct (index m key) eqn:?; simpl in H; try discriminate H
  end.

(** With the required strings in place and no extension map of length 0,
    the expansion returns a contact, and each field is read from its key. *)
Lemma ExpandNewContact_returns (m : gmap string value) :
  hasRequiredStrings (Some m) = true ->
  noEmptyExtension (Some m) = true ->
  exists contact,
    ExpandNewContact (Some m) = Ret (Some contact) /\
    Forall (fun '(key, field) => index (Some m) key = VString (field contact))
      requiredStringFields /\
    Forall (fun '(key, field) =>
              field contact = asString (index (Some m) key))
      optionalStringFields /\
    NewContact.ExtensionFr contact =
      match asMap (index (Some m) "extension_fr") with
      | Some ext =>
          match expandContactExtension ext "fr" with
          | ExtensionFR e => Some e
          | _ => None
          end
      | None => None
      end.
Proof.
  intros Hreq Hext. unfold hasRequiredStrings, noEmptyExtension in *.
  simpl in Hreq, Hext. unfold ExpandNewContact.
  repeat case_index Hreq. simpl.
  apply andb_prop in Hext as [Hfr Hext].
  apply andb_prop in Hext as [Heu Hext].
  apply andb_prop in Hext as [Hnl _].
  destruct (asMap (index (Some m) "extension_fr")) as [fr|];
    [destruct (expandContactExtension_fr fr Hfr) as [efr ->] |];
  (destruct (asMap (index (Some m) "extension_eu")) as [eu|];
    [destruct (expandContactExtension_eu eu Heu) as [eeu ->] |]);
  (destruct (asMap (index (Some m) "extension_nl")) as [nl|];
    [destruct (expandContactExtension_nl nl Hnl) as [enl ->] |]);
  simpl; (eexists; split; [reflexivity |]); simpl;
  (split; [repeat constructor; assumption |]);
  (split; [repeat constructor | reflexivity]).
Qed.

(** C5. Optional-field existence: on a contact map that expands, each of
    [company_name], [email_alt], [fax_number], [address_line_2],
    [vat_identification_code], [company_identification_code] and [state]
    fills its request field with the string under the key, the empty
    string included, and leaves the field nil when the key is missing. *)
Theorem ExpandNewContact_optional_fields (m : gmap string value) :
  hasRequiredStrings (Some m) = true ->
  noEmptyExtension (Some m) = true ->
  exists contact,
    ExpandNewContact (Some m) = Ret (Some contact) /\
    Forall (fun '(key, field) =>
              (m !! key = Some (VString "") -> field contact = Some "") /\
              (forall v, m !! key = Some (VString v) ->
                         field contact = Some v) /\
              (m !! key = None -> field contact = None))
      optionalStringFields.
Proof.
  intros Hreq Hext.
  destruct (ExpandNewContact_returns m Hreq Hext)
    as (contact & Heq & _ & Hopt & _).
  exists contact. split; [exact Heq |].
  eapply Forall_impl; [exact Hopt |].
  intros [key field] Hfield. rewrite Hfield. unfold index.
  repeat split; intros; match goal with Hk : m !! key = _ |- _ =>
    now rewrite Hk end.
Qed.

(** C2. Totality of the expansion, evaluated on the code: a contact map
    with its required strings whose [extension_fr] key holds a map of
    length 0 makes [ExpandNewContact] panic at the type assertion on the
    nil interface that [expandContactExtension] returned. *)
Theorem ExpandNewContact_empty_extension_panics (m : gmap string value)
  (ext : gomap) :
  hasRequiredStrings (Some m) = true ->
  m !! "extension_fr" = Some (VMap ext) ->
  len ext = 0 ->
  ExpandNewContact (Some m) = Panic InterfaceConversion.
Proof.
  intros Hreq Hfr Hlen. unfold hasRequiredStrings in Hreq. simpl in Hreq.
  unfold ExpandNewContact. repeat case_index Hreq. simpl.
  assert (index (Some m) "extension_fr" = VMap ext) as ->
    by (unfold index; now rewrite Hfr).
  simpl. now rewrite (expandContactExtension_empty _ _ Hlen).
Qed.

End ExpanderFacts.

Lemma ExpandNewContact_optional_fields_witness :
  let m := <[ "fax_number" := VString "" ]> sampleContactMap in
  hasRequiredStrings (Some m) = true /\
  noEmptyExtension (Some m) = true /\
  exists contact,
    ExpandNewContact (H := utcTime) (Some m) = Ret (Some contact) /\
    Forall (fun '(key, field) =>
              (m !! key = Some (VString "") -> field contact = Some "") /\
              (forall v, m !! key = Some (VString v) ->
                         field contact = Some v) /\
              (m !! key = None -> field contact = None))
      optionalStringFields.
Proof.
  intros m. split; [reflexivity | split; [reflexivity |]].
  apply (@ExpandNewContact_optional_fields utcTime m); reflexivity.
Defined.

Example ExpandNewContact_fax_number_samples :
  (exists contact,
     ExpandNewContact (H := utcTime)
       (Some (<[ "fax_number" := VString "" ]> sampleContactMap))
     = Ret (Some contact) /\
     NewContact.FaxNumber contact = Some "") /\
  (exists contact,
     ExpandNewContact (H := utcTime) (Some sampleContactMap)
     = Ret (Some contact) /\
     NewContact.FaxNumber contact = None).
Proof. split; eexists; split; reflexivity. Qed.

Lemma ExpandNewContact_empty_extension_panics_witness :
  let m := <[ "extension_fr" := VMap (Some ∅) ]> sampleContactMap in
  hasRequiredStrings (Some m) = true /\
  m !! "extension_fr" = Some (VMap (Some ∅)) /\
  len (Some ∅) = 0 /\
  ExpandNewContact (H := utcTime) (Some m) = Panic InterfaceConversion.
Proof.
  intros m. repeat (split; [reflexivity |]).
  apply (@ExpandNewContact_empty_extension_panics utcTime m (Some ∅));
    reflexivity.
Defined.

(** [ExpandContact] guards the same assertion with [len(extFr) > 0] and
    returns a contact without the extension. *)
Example ExpandContact_empty_extension_absent :
  exists contact,
    ExpandContact (H := utcTime)
      (Some (<[ "extension_fr" := VMap (Some ∅) ]> sampleContactMap))
    = Ret (Some contact) /\
    Contact.ExtensionFr contact = None.
Proof. eexists; split; reflexivity. Qed.

(** *** Indexing maps *)

Lemma index_lookup (m : gmap string value) (key : string) (v : value) :
  m !! key = Some v -> index (Some m) key = v.
Proof. intros Hkey. unfold index. now rewrite Hkey. Qed.

Lemma index_insert_eq (m : gmap string value) (key : string) (v : value) :
  index (Some (<[ key := v ]> m)) key = v.
Proof. unfold index. now rewrite lookup_insert_eq. Qed.

Lemma index_insert_ne (m : gmap string value) (key key' : string) (v : value) :
  key <> key' -> index (Some (<[ key := v ]> m)) key' = index (Some m) key'.
Proof. intros Hne. unfold index. now rewrite lookup_insert_ne. Qed.

Lemma index_delete_eq (m : gmap string value) (key : string) :
  index (Some (delete key m)) key = VNil.
Proof. unfold index. now rewrite lookup_delete_eq. Qed.

Lemma index_delete_ne (m : gmap string value) (key key' : string) :
  key <> key' -> index (Some (delete key m)) key' = index (Some m) key'.
Proof. intros Hne. unfold index. now rewrite lookup_delete_ne. Qed.

(** A map with a key has positive length. *)
Lemma lookup_len_positive (m : gmap string value) (key : string) (v : value) :
  m !! key = Some v -> Nat.ltb 0 (len (Some m)) = true.
Proof.
  intros Hkey. apply Nat.ltb_lt. simpl.
  assert (size m <> 0); [| lia].
  apply map_size_ne_0_lookup. eauto.
Qed.

(** *** Flattening contacts *)

Section FlattenerFacts.
Context `{TimeRFC3339}.

(** C3. Totality of the flattener, evaluated on the code: a contact whose
    French extension has an association info without publication date
    makes [flattenContact] panic on the nil pointer it formats. *)
Theorem flattenContact_nil_publication_date_panics (contact : Contact.t)
  (ext : ContactExtensionFR.t) (info : ContactExtensionFRAssociationInfo.t) :
  Contact.ExtensionFr contact = Some ext ->
  ContactExtensionFR.AssociationInfo ext = Some info ->
  ContactExtensionFRAssociationInfo.PublicationJo info = None ->
  flattenContact (Some contact) = Panic NilDereference.
Proof.
  intros Hfr Hinfo Hdate. unfold flattenContact. rewrite Hfr.
  unfold flattenContactExtensionFR. rewrite Hinfo.
  unfold flattenContactExtensionFRAssociationInfo. rewrite Hdate.
  reflexivity.
Qed.

(** The map literal of [flattenContact] has no extension key. *)
Lemma flattenContactFields_extension_keys (contact : Contact.t) :
  flattenContactFields contact !! "extension_fr" = None /\
  flattenContactFields contact !! "extension_eu" = None /\
  flattenContactFields contact !! "extension_nl" = None.
Proof. repeat split; vm_compute; reflexivity. Qed.

Lemma flattenContactExtensionFR_returns (ext : option ContactExtensionFR.t) :
  hasPublicationDate ext = true ->
  exists fr, flattenContactExtensionFR ext = Ret fr /\
             isPresent fr = isPresent ext.
Proof.
  intros Hdate. destruct ext as [ext|]; [| now exists None].
  unfold flattenContactExtensionFR, flattenContactExtensionFRAssociationInfo.
  simpl in Hdate.
  destruct (ContactExtensionFR.AssociationInfo ext) as [info|].
  - destruct (ContactExtensionFRAssociationInfo.PublicationJo info);
      [| discriminate Hdate].
    eexists; split; reflexivity.
  - eexists; split; reflexivity.
Qed.

(** Every info key of a flattened French extension is present: it holds
    the flattened block, which is the nil map for a nil block. *)
Lemma flattenContactExtensionFR_info_keys (ext : ContactExtensionFR.t) :
  hasPublicationDate (Some ext) = true ->
  exists (g : gmap string value) (association : gomap),
    flattenContactExtensionFR (Some ext) = Ret (Some g) /\
    flattenContactExtensionFRAssociationInfo
      (ContactExtensionFR.AssociationInfo ext) = Ret association /\
    g !! "individual_info" =
      Some (VMap (flattenContactExtensionFRIndividualInfo
                    (ContactExtensionFR.IndividualInfo ext))) /\
    g !! "duns_info" =
      Some (VMap (flattenContactExtensionFRDunsInfo
                    (ContactExtensionFR.DunsInfo ext))) /\
    g !! "association_info" = Some (VMap association) /\
    g !! "trademark_info" =
      Some (VMap (flattenContactExtensionFRTrademarkInfo
                    (ContactExtensionFR.TrademarkInfo ext))) /\
    g !! "code_auth_afnic_info" =
      Some (VMap (flattenContactExtensionFRCodeAuthAfnicInfo
                    (ContactExtensionFR.CodeAuthAfnicInfo ext))) /\
    Forall (fun '(key, present) =>
              if present ext : bool
              then exists nested, g !! key = Some (VMap (Some nested))
              else g !! key = Some (VMap None))
      infoPointers.
Proof.
  intros Hdate. unfold flattenContactExtensionFR.
  assert (exists association,
    flattenContactExtensionFRAssociationInfo
      (ContactExtensionFR.AssociationInfo ext) = Ret association /\
    isPresent association
    = isPresent (ContactExtensionFR.AssociationInfo ext))
    as (association & Hassociation & Hpresent).
  { simpl in Hdate. unfold flattenContactExtensionFRAssociationInfo.
    destruct (ContactExtensionFR.AssociationInfo ext) as [info|];
      [| now exists None].
    destruct (ContactExtensionFRAssociationInfo.PublicationJo info);
      [| discriminate Hdate].
    eexists; split; reflexivity. }
  rewrite Hassociation.
  eexists; exists association. split; [reflexivity |].
  split; [reflexivity |].
  do 5 (split; [reflexivity |]).
  unfold infoPointers. repeat constructor; cbn beta.
  all: match goal with
       | |- context [isPresent ?pointer] =>
           destruct pointer; cbn [isPresent] in *
       end.
  all: try (destruct association; try discriminate Hpresent).
  all: try reflexivity; eexists; reflexivity.
Qed.

(** C4, as the code has it. When [flattenContact] returns, each of
    [extension_fr], [extension_eu] and [extension_nl] is a key of the result
    exactly when the contact has that extension, and then holds the
    flattened extension; inside a flattened French extension each of the
    five info keys is always present and holds the flattened block, a
    field map for a block that is there and the nil map for a nil block.
    The contacts are those whose association info has its date. *)
Theorem flattenContact_extension_keys (contact : Contact.t) :
  hasPublicationDate (Contact.ExtensionFr contact) = true ->
  exists (m : gmap string value) (fr : gomap),
    flattenContact (Some contact) = Ret (Some m) /\
    flattenContactExtensionFR (Contact.ExtensionFr contact) = Ret fr /\
    m !! "extension_fr" =
      (if isPresent (Contact.ExtensionFr contact)
       then Some (VMap fr) else None) /\
    m !! "extension_eu" =
      (if isPresent (Contact.ExtensionEu contact)
       then Some (VMap (flattenContactExtensionEU (Contact.ExtensionEu contact)))
       else None) /\
    m !! "extension_nl" =
      (if isPresent (Contact.ExtensionNl contact)
       then Some (VMap (flattenContactExtensionNL (Contact.ExtensionNl contact)))
       else None) /\
    (forall ext, Contact.ExtensionFr contact = Some ext ->
       exists (g : gmap string value) (association : gomap),
         fr = Some g /\
         flattenContactExtensionFRAssociationInfo
           (ContactExtensionFR.AssociationInfo ext) = Ret association /\
         g !! "individual_info" =
           Some (VMap (flattenContactExtensionFRIndividualInfo
                         (ContactExtensionFR.IndividualInfo ext))) /\
         g !! "duns_info" =
           Some (VMap (flattenContactExtensionFRDunsInfo
                         (ContactExtensionFR.DunsInfo ext))) /\
         g !! "association_info" = Some (VMap association) /\
         g !! "trademark_info" =
           Some (VMap (flattenContactExtensionFRTrademarkInfo
                         (ContactExtensionFR.TrademarkInfo ext))) /\
         g !! "code_auth_afnic_info" =
           Some (VMap (flattenContactExtensionFRCodeAuthAfnicInfo
                         (ContactExtensionFR.CodeAuthAfnicInfo ext))) /\
         Forall (fun '(key, present) =>
                   if present ext : bool
                   then exists nested, g !! key = Some (VMap (Some nested))
                   else g !! key = Some (VMap None))
           infoPointers).
Proof.
  intros Hdate.
  destruct (flattenContactExtensionFR_returns _ Hdate) as (fr & Hfr & Hpresent).
  destruct (flattenContactFields_extension_keys contact) as (Kfr & Keu & Knl).
  unfold flattenContact. rewrite Hfr.
  destruct (Contact.ExtensionFr contact) as [efr|] eqn:Efr;
  destruct (Contact.ExtensionEu contact) as [eeu|] eqn:Eeu;
  destruct (Contact.ExtensionNl contact) as [enl|] eqn:Enl;
  (eexists; exists fr; split; [reflexivity |]); (split; [reflexivity |]);
  cbn [isPresent];
  (split; [rewrite ?lookup_insert_eq, ?lookup_insert_ne by discriminate;
           try assumption; reflexivity |]);
  (split; [rewrite ?lookup_insert_eq, ?lookup_insert_ne by discriminate;
           try assumption; reflexivity |]);
  (split; [rewrite ?lookup_insert_eq, ?lookup_insert_ne by discriminate;
           try assumption; reflexivity |]);
  intros ext Hext; try discriminate Hext; injection Hext as <-;
  destruct (flattenContactExtensionFR_info_keys efr Hdate)
    as (g & association & Hg & Hkeys);
  exists g, association; (split; [congruence | exact Hkeys]).
Qed.

Lemma nonEmptyString_string (v : string) : nonEmptyString (VString v) "" = v.
Proof.
  unfold nonEmptyString, asString.
  destruct (String.eqb_spec v ""); cbn [negb]; congruence.
Qed.

Lemma flattenContact_no_extension (contact : Contact.t) :
  Contact.ExtensionFr contact = None ->
  Contact.ExtensionEu contact = None ->
  Contact.ExtensionNl contact = None ->
  flattenContact (Some contact) = Ret (Some (flattenContactFields contact)).
Proof.
  intros Hfr Heu Hnl. unfold flattenContact. rewrite Hfr, Heu, Hnl.
  reflexivity.
Qed.

Lemma ExpandNewContact_flattened (contact : Contact.t) :
  ExpandNewContact (Some (flattenContactFields contact))
  = Ret (Some (literalNewContact contact)).
Proof. vm_compute. reflexivity. Qed.

(** C1. Round trip: a contact without extensions flattens to a map that
    [ExpandNewContact] expands to the request carrying the same field
    values, and that [ExpandContact] expands to the contact itself but for
    its registrar-assigned identifier; flattening that contact again gives
    the same map. *)
Theorem flattenContact_roundtrip (contact : Contact.t) :
  Contact.ExtensionFr contact = None ->
  Contact.ExtensionEu contact = None ->
  Contact.ExtensionNl contact = None ->
  exists m,
    flattenContact (Some contact) = Ret (Some m) /\
    ExpandNewContact (Some m) = Ret (Some (literalNewContact contact)) /\
    ExpandContact (Some m) = Ret (Some (withoutID contact)) /\
    flattenContact (Some (withoutID contact)) = Ret (Some m).
Proof.
  intros Hfr Heu Hnl. exists (flattenContactFields contact).
  split; [now apply flattenContact_no_extension |].
  split; [apply ExpandNewContact_flattened |].
  split.
  2:{ change (flattenContactFields contact)
        with (flattenContactFields (withoutID contact)).
      now apply flattenContact_no_extension. }
  unfold ExpandContact.
  repeat match goal with
  | |- context [index (Some (flattenContactFields contact)) ?key] =>
      let v := eval vm_compute in
        (index (Some (flattenContactFields contact)) key) in
      change (index (Some (flattenContactFields contact)) key) with v
  end.
  rewrite !nonEmptyString_string.
  unfold withoutID. rewrite Hfr, Heu, Hnl. reflexivity.
Qed.

End FlattenerFacts.

Lemma flattenContact_nil_publication_date_panics_witness :
  let info := ContactExtensionFRAssociationInfo.mk None 7 in
  let ext := sampleExtensionFR (Some info) in
  let contact := sampleContact (Some ext) None None in
  Contact.ExtensionFr contact = Some ext /\
  ContactExtensionFR.AssociationInfo ext = Some info /\
  ContactExtensionFRAssociationInfo.PublicationJo info = None /\
  flattenContact (H := utcTime) (Some contact) = Panic NilDereference.
Proof.
  intros info ext contact. repeat (split; [reflexivity |]).
  apply (@flattenContact_nil_publication_date_panics utcTime contact ext info);
    reflexivity.
Defined.

(** A French extension with no info block at all flattens to a map that
    still has the key [individual_info], so nil blocks do not leave their
    keys out. *)
Lemma flattenContactExtensionFR_keeps_nil_info_keys :
  ~ omitsNilInfoKeys (H := utcTime) (sampleExtensionFR None).
Proof.
  intros Hclaim. specialize (Hclaim _ eq_refl).
  apply Forall_cons in Hclaim as [Hkey _].
  specialize (Hkey eq_refl). vm_compute in Hkey. discriminate Hkey.
Qed.

Lemma flattenContact_extension_keys_witness :
  let contact := sampleContact (Some (sampleExtensionFR None)) None None in
  hasPublicationDate (Contact.ExtensionFr contact) = true /\
  exists (m : gmap string value) (g : gmap string value),
    flattenContact (H := utcTime) (Some contact) = Ret (Some m) /\
    m !! "extension_fr" = Some (VMap (Some g)) /\
    m !! "extension_eu" = None /\
    m !! "extension_nl" = None /\
    g !! "individual_info" = Some (VMap None).
Proof.
  intros contact. split; [reflexivity |].
  destruct (@flattenContact_extension_keys utcTime contact eq_refl)
    as (m & fr & Hm & _ & Hfr & Heu & Hnl & Hinfo).
  destruct (Hinfo _ eq_refl) as (g & association & -> & Hkeys).
  destruct Hkeys as (_ & _ & _ & _ & _ & _ & Hkeys).
  apply Forall_cons in Hkeys as [Hkey _].
  exists m, g. repeat split; assumption.
Defined.

Lemma flattenContact_roundtrip_witness :
  let contact := sampleContact None None None in
  Contact.ExtensionFr contact = None /\
  Contact.ExtensionEu contact = None /\
  Contact.ExtensionNl contact = None /\
  exists m,
    flattenContact (H := utcTime) (Some contact) = Ret (Some m) /\
    ExpandNewContact (H := utcTime) (Some m)
    = Ret (Some (literalNewContact contact)) /\
    ExpandContact (H := utcTime) (Some m) = Ret (Some (withoutID contact)) /\
    flattenContact (H := utcTime) (Some (withoutID contact)) = Ret (Some m).
Proof.
  intros contact. repeat (split; [reflexivity |]).
  apply (@flattenContact_roundtrip utcTime contact); reflexivity.
Defined.

(** *** Coercions inside the French extension *)

Lemma uint32_of_float64_in_range (page : spec_float) :
  (0 <= truncate page < 2 ^ 32)%Z -> uint32_of_float64 page = truncate page.
Proof. intros Hrange. unfold uint32_of_float64. now apply Z.mod_small. Qed.

(** The integer part of a finite float64 is its magnitude, the mantissa
    scaled by the power of two, cut toward zero, with the sign put back. *)
Lemma truncate_finite (s : bool) (m : positive) (e : Z) :
  truncate (S754_finite s m e) =
    let magnitude :=
      if (0 <=? e)%Z then (Zpos m * 2 ^ e)%Z else (Zpos m / 2 ^ (- e))%Z in
    if s then (- magnitude)%Z else magnitude.
Proof.
  unfold truncate. destruct e as [|n|n]; cbn [Z.leb Z.compare].
  - now rewrite Z.mul_1_r.
  - now rewrite Z.shiftl_mul_pow2 by lia.
  - now rewrite Z.shiftr_div_pow2 by lia.
Qed.

Section ExtensionFacts.
Context `{TimeRFC3339}.


End ExtensionFacts.


(** A timestamp that parses fills the publication date, and a page that is
    not a float64 leaves the page at 0. *)
Example expandContactExtension_samples :
  expandContactExtension (H := utcTime)
    (Some {[ "association_info" :=
               VMap (Some (<[ "publication_jo" :=
                                VString "2024-03-01T10:20:30Z" ]>
                           (<[ "publication_jo_page" := VString "12" ]> ∅))) ]})
    "fr"
  = ExtensionFR
      (ContactExtensionFR.mk ContactExtensionFRModeModeUnknown None None
         (Some (ContactExtensionFRAssociationInfo.mk
                  (Some (mkTime 2024 3 1 10 20 30 0 0)) 0))
         None None).
Proof. vm_compute. reflexivity. Qed.

(** The whole expansion of a contact map with such an extension returns. *)
Example ExpandNewContact_unparsable_date_sample :
  exists contact ext info,
    ExpandNewContact (H := utcTime)
      (Some (<[ "extension_fr" :=
                  VMap (Some {[ "association_info" :=
                    VMap (Some {[ "publication_jo" :=
                                    VString "not-a-date" ]}) ]}) ]>
             sampleContactMap))
    = Ret (Some contact) /\
    NewContact.ExtensionFr contact = Some ext /\
    ContactExtensionFR.AssociationInfo ext = Some info /\
    ContactExtensionFRAssociationInfo.PublicationJo info = None.
Proof.
  do 3 eexists. split; [vm_compute; reflexivity |].
  repeat split; reflexivity.
Qed.

(** *** Identifiers and their slashes *)

Lemma split_from_length (sep : ascii) (s cur : string) :
  length (split_from cur s sep) = S (count sep s).
Proof.
  revert cur; induction s as [|c s IH]; intros cur; simpl; [reflexivity |].
  destruct (Ascii.eqb c sep); simpl; now rewrite IH.
Qed.

Lemma count_append (c : ascii) (a b : string) :
  count c (a ++ b) = count c a + count c b.
Proof.
  induction a as [|x a IH]; [reflexivity |].
  rewrite append_cons. simpl. rewrite IH. lia.
Qed.

Lemma contains_count (c : ascii) (s : string) :
  contains c s = negb (Nat.eqb (count c s) 0).
Proof.
  induction s as [|x s IH]; [reflexivity |]. simpl.
  destruct (Ascii.eqb x c); simpl; [reflexivity | exact IH].
Qed.

(** Two segments come from exactly one separator, which stands between
    them. *)
Lemma split_from_two (sep : ascii) (s cur a b : string) :
  split_from cur s sep = [a; b] ->
  exists p, s = p ++ String sep b /\ a = cur ++ p /\
            contains sep p = false /\ contains sep b = false.
Proof.
  revert cur; induction s as [|c s IH]; intros cur Hsplit; simpl in Hsplit.
  - discriminate.
  - destruct (Ascii.eqb c sep) eqn:Hc.
    + apply Ascii.eqb_eq in Hc as ->.
      injection Hsplit as <- Hrest.
      pose proof (split_from_length sep s "") as Hlen. rewrite Hrest in Hlen.
      simpl in Hlen.
      assert (contains sep s = false) as Hs
        by (rewrite contains_count; destruct (count sep s);
            [reflexivity | discriminate]).
      rewrite (split_from_no_sep _ _ _ Hs) in Hrest.
      injection Hrest as Hrest. change ("" ++ s) with s in Hrest. subst b.
      exists "". change ("" ++ String sep s) with (String sep s).
      rewrite append_empty_r. repeat split. exact Hs.
    + destruct (IH _ Hsplit) as (p & -> & -> & Hp & Hb).
      exists (String c p). rewrite append_cons. split; [reflexivity |].
      split; [now rewrite append_assoc |]. split; [| exact Hb].
      simpl. now rewrite Hc.
Qed.

(** X1. The decoder accepts an identifier exactly when it has one slash:
    it returns a name for one slash, the error for any other number, and
    never panics. *)
Theorem extractDomainFromID_slash_count (id : string) :
  match extractDomainFromID id with
  | Ret _ => count "/" id = 1
  | Err _ => count "/" id <> 1
  | Panic _ => False
  end.
Proof.
  unfold extractDomainFromID, strings_Split.
  pose proof (split_from_length "/" id "") as Hlen.
  destruct (split_from "" id "/") as [|a [|b [|x rest]]]; simpl in *; lia.
Qed.

(** X2. Whatever the decoder returns was encoded: when it returns a name,
    the identifier is some project ID, a slash and that name, and neither
    part contains a slash. *)
Theorem extractDomainFromID_inverse (id domainName : string) :
  extractDomainFromID id = Ret domainName ->
  exists projectID,
    id = resourceOrderDomainID projectID domainName /\
    contains "/" projectID = false /\ contains "/" domainName = false.
Proof.
  unfold extractDomainFromID, strings_Split. intros Hid.
  destruct (split_from "" id "/") as [|a [|b [|x rest]]] eqn:Hsplit;
    try discriminate Hid.
  simpl in Hid. injection Hid as ->.
  destruct (split_from_two _ _ _ _ _ Hsplit) as (p & -> & _ & Hp & Hd).
  exists p. repeat split; assumption.
Qed.

Lemma extractDomainFromID_inverse_witness :
  extractDomainFromID "proj-1/example.com" = Ret "example.com" /\
  exists projectID,
    "proj-1/example.com" = resourceOrderDomainID projectID "example.com" /\
    contains "/" projectID = false /\ contains "/" "example.com" = false.
Proof.
  split; [reflexivity |].
  apply (extractDomainFromID_inverse "proj-1/example.com" "example.com").
  reflexivity.
Defined.

Lemma resourceOrderDomainID_segments (projectID domainName : string) :
  length (strings_Split (resourceOrderDomainID projectID domainName) "/")
  = 2 + count "/" projectID + count "/" domainName.
Proof.
  unfold strings_Split, resourceOrderDomainID.
  rewrite split_from_length, !count_append.
  change (count "/" "/") with 1. lia.
Qed.

(** X3. An identifier minted from a project ID and a domain name decodes
    to the domain name when neither contains a slash, and is rejected as
    invalid as soon as one of them does. *)
Theorem resourceOrderDomainID_decodes (projectID domainName : string) :
  extractDomainFromID (resourceOrderDomainID projectID domainName) =
    if contains "/" projectID || contains "/" domainName
    then Err ("invalid ID format, expected 'projectID/domainName', got: "
              ++ resourceOrderDomainID projectID domainName)
    else Ret domainName.
Proof.
  destruct (contains "/" projectID || contains "/" domainName) eqn:Hslash.
  - unfold extractDomainFromID.
    rewrite resourceOrderDomainID_segments.
    rewrite !contains_count in Hslash.
    destruct (count "/" projectID), (count "/" domainName);
      try discriminate Hslash; reflexivity.
  - apply orb_false_iff in Hslash as [Hp Hd].
    unfold extractDomainFromID, resourceOrderDomainID, strings_Split.
    change ("/" ++ domainName) with (String "/" domainName).
    rewrite (split_from_sep _ _ _ _ Hp), (split_from_no_sep _ _ _ Hd).
    reflexivity.
Qed.

(** *** When the expansions return *)

Lemma len_zero_of_not_positive (m : gomap) :
  Nat.ltb 0 (len m) = false -> len m = 0.
Proof. intros Hlen. apply Nat.ltb_ge in Hlen. lia. Qed.

Ltac required_key key :=
  match goal with
  | |- context [mustString (index ?m key)] =>
      destruct (index m key) eqn:?;
      cbn [mustString mbind outcome_bind asString andb forallb];
      lazymatch goal with |- _ = _ => reflexivity | |- _ => idtac end
  end.

Ltac required_keys :=
  required_key "phone_number"; required_key "legal_form";
  required_key "firstname"; required_key "lastname"; required_key "email";
  required_key "address_line_1"; required_key "zip"; required_key "city";
  required_key "country".

Ltac extension_key key lemma :=
  match goal with
  | |- context [asMap (index ?m key)] =>
      destruct (asMap (index m key)) as [?ext|];
      [ match goal with
        | |- context [Nat.ltb 0 (len ?e)] =>
            let Hlen := fresh "Hlen" in
            destruct (Nat.ltb 0 (len e)) eqn:Hlen;
            [ let x := fresh "x" in
              destruct (lemma e Hlen) as [x ->]
            | rewrite (expandContactExtension_empty e _
                         (len_zero_of_not_positive e Hlen)) ]
        end
      | ];
      cbn [mustExtensionFR mustExtensionEU mustExtensionNL mbind outcome_bind
           andb];
      lazymatch goal with |- _ = _ => reflexivity | |- _ => idtac end
  end.

Ltac guarded_extension_key key lemma :=
  match goal with
  | |- context [asMap (index ?m key)] =>
      destruct (asMap (index m key)) as [?ext|];
      [ match goal with
        | |- context [Nat.ltb 0 (len ?e)] =>
            let Hlen := fresh "Hlen" in
            destruct (Nat.ltb 0 (len e)) eqn:Hlen;
            [ let x := fresh "x" in
              destruct (lemma e Hlen) as [x ->]
            | ]
        end
      | ];
      cbn [mustExtensionFR mustExtensionEU mustExtensionNL mbind outcome_bind]
  end.

Ltac index_simpl :=
  repeat match goal with
  | |- context [index (Some (<[?k := ?v]> ?m)) ?k'] =>
      first [ rewrite (index_insert_ne m k k' v) by discriminate
            | rewrite (index_insert_eq m k v) ]
  | |- context [index (Some (delete ?k ?m)) ?k'] =>
      first [ rewrite (index_delete_ne m k k') by discriminate
            | rewrite (index_delete_eq m k) ]
  end.

Section ExpansionReturns.
Context `{TimeRFC3339}.

(** X4. [ExpandNewContact] returns a contact exactly on the maps that hold
    a string under each required key and no map of length 0 under an
    extension key; on every other map it panics on a type assertion. *)
Theorem ExpandNewContact_returns_iff (m : gmap string value) :
  if hasRequiredStrings (Some m) && noEmptyExtension (Some m)
  then exists contact, ExpandNewContact (Some m) = Ret (Some contact)
  else ExpandNewContact (Some m) = Panic InterfaceConversion.
Proof.
  unfold hasRequiredStrings, noEmptyExtension, requiredKeys, extensionKeys,
    ExpandNewContact.
  cbn [forallb]. required_keys.
  extension_key "extension_fr" expandContactExtension_fr;
  extension_key "extension_eu" expandContactExtension_eu;
  extension_key "extension_nl" expandContactExtension_nl;
  eexists; reflexivity.
Qed.

(** X5. [ExpandContact] returns a contact exactly on the maps that hold a
    string under each required key, whatever is under the extension keys,
    and panics on a type assertion on the others. *)
Theorem ExpandContact_returns_iff (m : gmap string value) :
  if hasRequiredStrings (Some m)
  then exists contact, ExpandContact (Some m) = Ret (Some contact)
  else ExpandContact (Some m) = Panic InterfaceConversion.
Proof.
  unfold hasRequiredStrings, requiredKeys, ExpandContact.
  cbn [forallb]. required_keys.
  guarded_extension_key "extension_fr" expandContactExtension_fr;
  guarded_extension_key "extension_eu" expandContactExtension_eu;
  guarded_extension_key "extension_nl" expandContactExtension_nl;
  eexists; reflexivity.
Qed.

(** X6. [ExpandContact] does not tell an empty optional string from a
    missing key: setting any of its optional string keys to the empty
    string gives the same result as deleting the key. *)
Theorem ExpandContact_empty_optional (m : gmap string value) :
  Forall (fun key =>
            ExpandContact (Some (<[ key := VString "" ]> m))
            = ExpandContact (Some (delete key m)))
    optionalContactKeys.
Proof.
  unfold optionalContactKeys. repeat constructor.
  all: unfold ExpandContact; index_simpl; reflexivity.
Qed.

Lemma flattenContactExtensionEU_roundtrip (e : ContactExtensionEU.t) :
  expandContactExtension (flattenContactExtensionEU (Some e)) "eu"
  = ExtensionEU e.
Proof. destruct e. vm_compute. reflexivity. Qed.

Lemma flattenContactExtensionNL_roundtrip (e : ContactExtensionNL.t) :
  expandContactExtension (flattenContactExtensionNL (Some e)) "nl"
  = ExtensionNL e.
Proof. destruct e. vm_compute. reflexivity. Qed.

(** X7. Round trip of the European and Dutch extensions: flattening one
    and expanding the map under its own type gives the extension back. *)
Theorem flattenContactExtension_roundtrip :
  (forall e : ContactExtensionEU.t,
     expandContactExtension (flattenContactExtensionEU (Some e)) "eu"
     = ExtensionEU e) /\
  (forall e : ContactExtensionNL.t,
     expandContactExtension (flattenContactExtensionNL (Some e)) "nl"
     = ExtensionNL e).
Proof.
  split; intros e.
  - apply flattenContactExtensionEU_roundtrip.
  - apply flattenContactExtensionNL_roundtrip.
Qed.

(** X9. Defaults of the extension expansion: on a map that is not empty
    and has none of the keys the expansion reads, the French extension has
    the unknown mode and no info block, the Dutch one the unknown legal form
    and an empty registration number, the European one an empty
    citizenship; a type other than the three gives the nil interface. *)
Theorem expandContactExtension_defaults (ext : gmap string value) :
  Nat.ltb 0 (size ext) = true ->
  Forall (fun key => ext !! key = None) extensionFieldKeys ->
  expandContactExtension (Some ext) "fr"
  = ExtensionFR (ContactExtensionFR.mk ContactExtensionFRModeModeUnknown
                   None None None None None) /\
  expandContactExtension (Some ext) "nl"
  = ExtensionNL (ContactExtensionNL.mk
                   ContactExtensionNLLegalFormLegalFormUnknown "") /\
  expandContactExtension (Some ext) "eu"
  = ExtensionEU (ContactExtensionEU.mk "") /\
  (forall extensionType,
     extensionType <> "fr" -> extensionType <> "nl" -> extensionType <> "eu" ->
     expandContactExtension (Some ext) extensionType = ExtensionNil).
Proof.
  intros Hlen Hkeys. unfold extensionFieldKeys in Hkeys.
  repeat match goal with
  | Hk : Forall _ (_ :: _) |- _ => apply Forall_cons in Hk as [? Hk]
  end.
  unfold expandContactExtension.
  rewrite (len_positive_not_nil (Some ext) Hlen).
  unfold parseEnum, parseStruct, index.
  repeat match goal with Hk : ext !! _ = None |- _ => rewrite Hk; clear Hk end.
  repeat split.
  intros extensionType Hfr Hnl Heu.
  apply String.eqb_neq in Hfr, Hnl, Heu. now rewrite Hfr, Hnl, Heu.
Qed.

Lemma flattenContactFields_size (contact : Contact.t) :
  size (flattenContactFields contact) = 19.
Proof. vm_compute. reflexivity. Qed.

Lemma insert_extension_keeps (m : gmap string value) (key key' : string)
  (v v' : value) :
  m !! key = None -> m !! key' = Some v' ->
  <[ key := v ]> m !! key' = Some v'.
Proof.
  intros Hkey Hkey'. rewrite lookup_insert_ne; [exact Hkey' |].
  intros ->. congruence.
Qed.

(** X10. [flattenContact] returns a map exactly for the contacts whose
    French association info, if any, has its publication date, and panics
    on the nil date otherwise. The map it returns has the nineteen keys of
    the contact literal with their values, and one more key for each
    extension the contact carries. *)
Theorem flattenContact_returns_iff (contact : Contact.t) :
  if hasPublicationDate (Contact.ExtensionFr contact)
  then exists m,
         flattenContact (Some contact) = Ret (Some m) /\
         size m = 19 + extensionCount contact /\
         (forall key v, flattenContactFields contact !! key = Some v ->
                        m !! key = Some v)
  else flattenContact (Some contact) = Panic NilDereference.
Proof.
  destruct (hasPublicationDate (Contact.ExtensionFr contact)) eqn:Hdate.
  - destruct (flattenContactExtensionFR_returns _ Hdate) as (fr & Hfr & _).
    destruct (flattenContactFields_extension_keys contact) as (Kfr & Keu & Knl).
    pose proof (flattenContactFields_size contact) as Hsize.
    unfold flattenContact, extensionCount. rewrite Hfr.
    generalize dependent (flattenContactFields contact). intros fields.
    intros Kfr Keu Knl Hsize.
    destruct (Contact.ExtensionFr contact) as [efr|];
    destruct (Contact.ExtensionEu contact) as [eeu|];
    destruct (Contact.ExtensionNl contact) as [enl|];
    cbn [isPresent mbind outcome_bind];
    (eexists; split; [reflexivity |]); split.
    all: try (rewrite ?map_size_insert_None, Hsize
                by (rewrite ?lookup_insert_ne by discriminate; assumption);
              reflexivity).
    all: intros key v Hkey;
      repeat (apply insert_extension_keeps;
              [rewrite ?lookup_insert_ne by discriminate; assumption |]);
      exact Hkey.
  - unfold hasPublicationDate in Hdate.
    destruct (Contact.ExtensionFr contact) as [ext|] eqn:Hfr;
      [| discriminate Hdate].
    destruct (ContactExtensionFR.AssociationInfo ext) as [info|] eqn:Hinfo;
      [| discriminate Hdate].
    destruct (ContactExtensionFRAssociationInfo.PublicationJo info) eqn:Hjo;
      [discriminate Hdate |].
    unfold flattenContact. rewrite Hfr.
    unfold flattenContactExtensionFR. rewrite Hinfo.
    unfold flattenContactExtensionFRAssociationInfo. rewrite Hjo.
    reflexivity.
Qed.

(** X11. Round trip through [ExpandContact] with extensions: a contact
    without French extension, with or without the European and Dutch ones,
    flattens to a map that [ExpandContact] expands to the contact itself
    but for its identifier, and that contact flattens to the same map. *)
Theorem ExpandContact_flattenContact (contact : Contact.t) :
  Contact.ExtensionFr contact = None ->
  exists m,
    flattenContact (Some contact) = Ret (Some m) /\
    ExpandContact (Some m) = Ret (Some (withoutID contact)) /\
    flattenContact (Some (withoutID contact)) = Ret (Some m).
Proof.
  intros Hfr. unfold flattenContact at 1. rewrite Hfr.
  cbn [mbind outcome_bind]. eexists. split; [reflexivity |].
  split.
  2:{ unfold flattenContact, withoutID.
      cbn [Contact.ExtensionFr Contact.ExtensionEu Contact.ExtensionNl].
      rewrite Hfr. reflexivity. }
  unfold ExpandContact, withoutID. rewrite Hfr.
  destruct (Contact.ExtensionEu contact) as [eu|];
  destruct (Contact.ExtensionNl contact) as [nl|];
  index_simpl;
  repeat match goal with
  | |- context [index (Some (flattenContactFields contact)) ?key] =>
      let v := eval vm_compute in
        (index (Some (flattenContactFields contact)) key) in
      change (index (Some (flattenContactFields contact)) key) with v
  end;
  rewrite !nonEmptyString_string;
  cbn [mustString asBool asMap mbind outcome_bind];
  rewrite ?flattenContactExtensionEU_roundtrip,
    ?flattenContactExtensionNL_roundtrip.
  all: try destruct eu; try destruct nl; reflexivity.
Qed.

End ExpansionReturns.

(** X8. A French extension does not survive the round trip: when it
    flattens to a map, expanding that map gives the extension in which
    every nil info block has become a zero-valued block, the publication
    date has gone through [Format] and [Parse], and the publication page
    is 0, because the flattener stores a uint32 where the expansion reads
    a float64. *)
Theorem flattenContactExtensionFR_reexpanded `{T : TimeRFC3339}
  (ext : ContactExtensionFR.t) (g : gmap string value) :
  flattenContactExtensionFR (Some ext) = Ret (Some g) ->
  expandContactExtension (Some g) "fr" = ExtensionFR (reexpandedExtensionFR ext).
Proof.
  intros Hg. destruct T as [parse format].
  unfold flattenContactExtensionFR in Hg.
  destruct ext as [mode individual duns association trademark code].
  cbn [ContactExtensionFR.AssociationInfo ContactExtensionFR.Mode
       ContactExtensionFR.IndividualInfo ContactExtensionFR.DunsInfo
       ContactExtensionFR.TrademarkInfo ContactExtensionFR.CodeAuthAfnicInfo]
    in Hg.
  unfold flattenContactExtensionFRAssociationInfo in Hg.
  destruct association as [[[date|] page]|];
    cbn [formatPointer mbind outcome_bind
         ContactExtensionFRAssociationInfo.PublicationJo
         ContactExtensionFRAssociationInfo.PublicationJoPage] in Hg;
    try discriminate Hg; injection Hg as <-.
  all: destruct individual as [[?]|], duns as [[? ?]|], trademark as [[?]|],
         code as [[?]|].
  all: vm_compute; try destruct (parse (format date)); reflexivity.
Qed.

Lemma flattenContactExtensionFR_reexpanded_witness :
  let info :=
    ContactExtensionFRAssociationInfo.mk
      (Some (mkTime 2024 3 1 10 20 30 0 0)) 7 in
  let ext := sampleExtensionFR (Some info) in
  exists g,
    flattenContactExtensionFR (H := utcTime) (Some ext) = Ret (Some g) /\
    expandContactExtension (H := utcTime) (Some g) "fr"
    = ExtensionFR (reexpandedExtensionFR (H := utcTime) ext).
Proof.
  intros info ext.
  let flat := eval vm_compute in
    (flattenContactExtensionFR (H := utcTime) (Some ext)) in
  lazymatch flat with
  | Ret (Some ?g) =>
      assert (flattenContactExtensionFR (H := utcTime) (Some ext)
              = Ret (Some g)) as Hg by (vm_compute; reflexivity);
      exists g; split;
        [exact Hg
        | exact (@flattenContactExtensionFR_reexpanded utcTime ext g Hg)]
  end.
Defined.

(** The extension of that example comes back with four zero-valued blocks
    and page 0 instead of 7. *)
Example reexpandedExtensionFR_sample :
  reexpandedExtensionFR (H := utcTime)
    (sampleExtensionFR
       (Some (ContactExtensionFRAssociationInfo.mk
                (Some (mkTime 2024 3 1 10 20 30 0 0)) 7)))
  = ContactExtensionFR.mk "association"
      (Some ContactExtensionFRIndividualInfo.zero)
      (Some ContactExtensionFRDunsInfo.zero)
      (Some (ContactExtensionFRAssociationInfo.mk
               (Some (mkTime 2024 3 1 10 20 30 0 0)) 0))
      (Some ContactExtensionFRTrademarkInfo.zero)
      (Some ContactExtensionFRCodeAuthAfnicInfo.zero).
Proof. vm_compute. reflexivity. Qed.

Lemma expandContactExtension_defaults_witness :
  let ext : gmap string value := {[ "comment" := VString "none" ]} in
  Nat.ltb 0 (size ext) = true /\
  Forall (fun key => ext !! key = None) extensionFieldKeys /\
  expandContactExtension (H := utcTime) (Some ext) "fr"
  = ExtensionFR (ContactExtensionFR.mk "mode_unknown" None None None None None).
Proof.
  intros ext.
  assert (Forall (fun key => ext !! key = None) extensionFieldKeys) as Hkeys
    by (repeat constructor).
  split; [reflexivity | split; [exact Hkeys |]].
  exact (proj1 (@expandContactExtension_defaults utcTime ext eq_refl Hkeys)).
Defined.

Lemma ExpandContact_flattenContact_witness :
  let contact :=
    sampleContact None (Some (ContactExtensionEU.mk "FR"))
      (Some (ContactExtensionNL.mk "bv" "12345678")) in
  Contact.ExtensionFr contact = None /\
  exists m,
    flattenContact (H := utcTime) (Some contact) = Ret (Some m) /\
    ExpandContact (H := utcTime) (Some m) = Ret (Some (withoutID contact)) /\
    flattenContact (H := utcTime) (Some (withoutID contact)) = Ret (Some m).
Proof.
  intros contact. split; [reflexivity |].
  apply (@ExpandContact_flattenContact utcTime contact). reflexivity.
Defined.

(** *** More on the record lookup *)

Lemma prefix_append (a b : string) : String.prefix a (a ++ b) = true.
Proof.
  induction a as [|c a IH]; [now destruct b |].
  rewrite append_cons. simpl. destruct (ascii_dec c c); [exact IH | congruence].
Qed.

Section RecordLookupMore.
Variable strings_ToLower : string -> string.
Variable flattenDomainData : string -> string -> value.

#[local] Abbreviation matches :=
  (recordMatches strings_ToLower flattenDomainData).
#[local] Abbreviation range :=
  (rangeRecords strings_ToLower flattenDomainData).
#[local] Abbreviation lookup :=
  (getRecordFromTypeAndData strings_ToLower flattenDomainData).

(** X12. The lookup returns the first record that matches: records before
    it that do not match are passed over, and nothing after it is looked
    at. *)
Theorem getRecordFromTypeAndData_returns_first (dnsType data : string)
  (before after : list DNSRecord.t) (r : DNSRecord.t) :
  Forall (fun r' => matches dnsType data r' = Ret false) before ->
  matches dnsType data r = Ret true ->
  lookup dnsType data (before ++ r :: after) = Ret r.
Proof.
  intros Hbefore Hr. unfold getRecordFromTypeAndData.
  assert (range dnsType data (before ++ r :: after) None = Ret (Some r)) as ->;
    [| reflexivity].
  induction Hbefore as [|r' rest Hr' _ IH]; simpl.
  - now rewrite Hr.
  - now rewrite Hr'.
Qed.

Lemma rangeRecords_sound (dnsType data : string) (records : list DNSRecord.t)
  (r : DNSRecord.t) :
  range dnsType data records None = Ret (Some r) ->
  In r records /\ matches dnsType data r = Ret true.
Proof.
  induction records as [|r' rest IH]; simpl; [discriminate |].
  destruct (matches dnsType data r') as [[|]|e|p] eqn:Hr'; simpl;
    try discriminate.
  - intros [= <-]. split; [now left | exact Hr'].
  - intros Hrest. destruct (IH Hrest) as [Hin Hm].
    split; [now right | exact Hm].
Qed.

(** X13. A record the lookup returns is one of the records given, has the
    type asked for, and its flattened lower-case data starts with the
    flattened lower-case data asked for. *)
Theorem getRecordFromTypeAndData_sound (dnsType data : string)
  (records : list DNSRecord.t) (r : DNSRecord.t) :
  lookup dnsType data records = Ret r ->
  In r records /\ DNSRecord.Type_ r = dnsType /\
  exists flattedData flattenCurrentData,
    flattenDomainData (strings_ToLower (DNSRecord.Data r)) (DNSRecord.Type_ r)
    = VString flattedData /\
    flattenDomainData (strings_ToLower data) (DNSRecord.Type_ r)
    = VString flattenCurrentData /\
    strings_HasPrefix flattedData flattenCurrentData = true.
Proof.
  unfold getRecordFromTypeAndData. intros Hlookup.
  destruct (range dnsType data records None) as [[r'|]|e|p] eqn:Hrange;
    simpl in Hlookup; try discriminate Hlookup.
  injection Hlookup as ->.
  destruct (rangeRecords_sound _ _ _ _ Hrange) as [Hin Hm].
  split; [exact Hin |]. unfold recordMatches in Hm.
  destruct (flattenDomainData (strings_ToLower (DNSRecord.Data r)) _)
    as [| a | | | | |] eqn:Ha; simpl in Hm; try discriminate Hm.
  destruct (flattenDomainData (strings_ToLower data) _)
    as [| b | | | | |] eqn:Hb; simpl in Hm; try discriminate Hm.
  injection Hm as Hm. apply andb_prop in Hm as [Hprefix Htype].
  split; [now apply String.eqb_eq |]. exists a, b. repeat split; assumption.
Qed.

(** X14. The lookup matches on a prefix: where [flattenDomainData] leaves
    the data of the record's type as it is, a first record whose lower-case
    data merely starts with the lower-case data asked for is returned. *)
Theorem getRecordFromTypeAndData_prefix_match (data extra : string)
  (r : DNSRecord.t) (after : list DNSRecord.t) :
  (forall d, flattenDomainData d (DNSRecord.Type_ r) = VString d) ->
  strings_ToLower (DNSRecord.Data r) = strings_ToLower data ++ extra ->
  lookup (DNSRecord.Type_ r) data (r :: after) = Ret r.
Proof.
  intros Hflat Hlower.
  apply getRecordFromTypeAndData_first_match.
  unfold recordMatches. rewrite !Hflat, Hlower. simpl.
  unfold strings_HasPrefix. now rewrite prefix_append, String.eqb_refl.
Qed.

End RecordLookupMore.

Lemma getRecordFromTypeAndData_returns_first_witness :
  let mx := DNSRecord.mk "10 mail.example.com." "MX" "rec-1" in
  let a := DNSRecord.mk "1.2.3.4" "A" "rec-2" in
  let a' := DNSRecord.mk "1.2.3.4" "A" "rec-3" in
  Forall (fun r' =>
            recordMatches asciiToLower plainDomainData "A" "1.2.3.4" r'
            = Ret false) [mx] /\
  recordMatches asciiToLower plainDomainData "A" "1.2.3.4" a = Ret true /\
  getRecordFromTypeAndData asciiToLower plainDomainData "A" "1.2.3.4"
    ([mx] ++ a :: [a']) = Ret a.
Proof.
  intros mx a a'.
  assert (Forall (fun r' =>
            recordMatches asciiToLower plainDomainData "A" "1.2.3.4" r'
            = Ret false) [mx]) as Hbefore by (repeat constructor).
  split; [exact Hbefore | split; [reflexivity |]].
  exact (getRecordFromTypeAndData_returns_first asciiToLower plainDomainData
           "A" "1.2.3.4" [mx] [a'] a Hbefore eq_refl).
Defined.

Lemma getRecordFromTypeAndData_sound_witness :
  let a := DNSRecord.mk "1.2.3.4" "A" "rec-2" in
  getRecordFromTypeAndData asciiToLower plainDomainData "A" "1.2.3.4" [a]
  = Ret a /\
  In a [a] /\ DNSRecord.Type_ a = "A".
Proof.
  intros a. split; [reflexivity |].
  destruct (getRecordFromTypeAndData_sound asciiToLower plainDomainData
              "A" "1.2.3.4" [a] a eq_refl) as (Hin & Htype & _).
  split; assumption.
Defined.

Lemma getRecordFromTypeAndData_prefix_match_witness :
  let r := DNSRecord.mk "1.2.3.40" "A" "rec-1" in
  (forall d, plainDomainData d (DNSRecord.Type_ r) = VString d) /\
  asciiToLower (DNSRecord.Data r) = asciiToLower "1.2.3.4" ++ "0" /\
  getRecordFromTypeAndData asciiToLower plainDomainData "A" "1.2.3.4" [r]
  = Ret r.
Proof.
  intros r. split; [reflexivity | split; [reflexivity |]].
  exact (getRecordFromTypeAndData_prefix_match asciiToLower plainDomainData
           "1.2.3.4" "0" r [] (fun d => eq_refl) eq_refl).
Defined.

Lemma getRecordFromTypeAndData_not_found_witness :
  let mx := DNSRecord.mk "10 mail.example.com." "MX" "rec-1" in
  Forall (fun r =>
            recordMatches asciiToLower plainDomainData "A" "1.2.3.4" r
            = Ret false) [mx] /\
  getRecordFromTypeAndData asciiToLower plainDomainData "A" "1.2.3.4" [mx]
  = Err "record with type A and data 1.2.3.4 not found".
Proof.
  intros mx.
  assert (Forall (fun r =>
            recordMatches asciiToLower plainDomainData "A" "1.2.3.4" r
            = Ret false) [mx]) as Hnone by (repeat constructor).
  split; [exact Hnone |].
  exact (getRecordFromTypeAndData_not_found asciiToLower plainDomainData
           "A" "1.2.3.4" [mx] Hnone).
Defined.

(** *** More on the owner-contact validation *)

(** X16. A revision that changes neither owner field is rejected, whatever
    the two fields hold: the validator does not read a field that did not
    change. *)
Theorem CustomizeDiff_unchanged_owner {Meta : Type} (d : ResourceDiff.t)
  (meta : Meta) :
  ResourceDiff.HasChange d "owner_contact_id" = false ->
  ResourceDiff.HasChange d "owner_contact" = false ->
  CustomizeDiff d meta
  = Err "either `owner_contact_id` or `owner_contact` must be provided".
Proof.
  intros Hid Hcontact. unfold CustomizeDiff. now rewrite Hid, Hcontact.
Qed.

Lemma CustomizeDiff_unchanged_owner_witness :
  let d := ResourceDiff.mk (fun _ => false)
             (fun key => if String.eqb key "owner_contact_id"
                         then VString "ID1" else VNil) in
  ResourceDiff.HasChange d "owner_contact_id" = false /\
  ResourceDiff.HasChange d "owner_contact" = false /\
  CustomizeDiff d tt
  = Err "either `owner_contact_id` or `owner_contact` must be provided".
Proof.
  intros d. split; [reflexivity | split; [reflexivity |]].
  exact (CustomizeDiff_unchanged_owner d tt eq_refl eq_refl).
Defined.

(** *** Reverse names *)

Lemma swapElements_ends (before middle after : list string) (x y : string) :
  swapElements (before ++ x :: middle ++ y :: after)%list
    (Z.of_nat (length before))
    (Z.of_nat (length before) + Z.of_nat (length middle) + 1)
  = Completed (before ++ y :: middle ++ x :: after)%list.
Proof.
  unfold swapElements, elementAt.
  destruct (Z.ltb_spec (Z.of_nat (length before) + Z.of_nat (length middle) + 1) 0);
    [lia |].
  destruct (Z.ltb_spec (Z.of_nat (length before)) 0); [lia |].
  replace (Z.to_nat (Z.of_nat (length before) + Z.of_nat (length middle) + 1))
    with (length before + S (length middle)) by lia.
  rewrite Nat2Z.id.
  rewrite (lookup_app_r before) by lia.
  replace (length before + S (length middle) - length before)
    with (S (length middle)) by lia.
  cbn [lookup list_lookup]. 
  rewrite (lookup_app_r middle) by lia. rewrite Nat.sub_diag.
  cbn [lookup list_lookup].
  rewrite (lookup_app_r before) by lia. rewrite Nat.sub_diag.
  cbn [lookup list_lookup]. f_equal.
  rewrite (insert_app_r_alt before) by lia. rewrite Nat.sub_diag.
  cbn [insert list_insert].
  rewrite (insert_app_r_alt before) by lia. f_equal.
  replace (length before + S (length middle) - length before)
    with (S (length middle)) by lia.
  cbn [insert list_insert]. f_equal.
  rewrite (insert_app_r_alt middle) by lia. rewrite Nat.sub_diag.
  reflexivity.
Qed.

Lemma reverseLoop_done (fuel : nat) (parts : list string) (i j : Z) :
  (j <= i)%Z -> reverseLoop fuel parts i j = Completed parts.
Proof.
  intros Hji. destruct fuel; simpl;
    destruct (Z.ltb_spec i j); try lia; reflexivity.
Qed.

Lemma reverseLoop_step (fuel : nat) (parts : list string) (i j : Z) :
  (i < j)%Z ->
  reverseLoop (S fuel) parts i j =
    match swapElements parts i j with
    | Completed parts' => reverseLoop fuel parts' (i + 1) (j - 1)
    | IndexOutOfRange => IndexOutOfRange
    | OutOfFuel => OutOfFuel
    end.
Proof.
  intros Hij. cbn [reverseLoop].
  destruct (Z.ltb_spec i j); [reflexivity | lia].
Qed.

Lemma reverseLoop_reverses (fuel : nat) :
  forall middle before after : list string,
    length middle <= 2 * fuel + 1 ->
    reverseLoop fuel (before ++ middle ++ after)%list
      (Z.of_nat (length before))
      (Z.of_nat (length before) + Z.of_nat (length middle) - 1)
    = Completed (before ++ rev middle ++ after)%list.
Proof.
  induction fuel as [|fuel IH]; intros middle before after Hfuel.
  - destruct middle as [|x [|y rest]]; simpl in Hfuel; try lia;
      rewrite reverseLoop_done by (simpl; lia); reflexivity.
  - destruct middle as [|x rest];
      [rewrite reverseLoop_done by (simpl; lia); reflexivity |].
    destruct (decide (rest = [])) as [-> | Hrest];
      [rewrite reverseLoop_done by (simpl; lia); reflexivity |].
    destruct (exists_last Hrest) as (inner & y & ->).
    rewrite length_cons, length_app in Hfuel. simpl in Hfuel.
    rewrite reverseLoop_step
      by (rewrite length_cons, length_app; simpl; lia).
    replace (before ++ (x :: inner ++ [y]) ++ after)%list
      with (before ++ x :: inner ++ y :: after)%list
      by (simpl; now rewrite <- !app_assoc).
    replace (Z.of_nat (length before)
             + Z.of_nat (length (x :: inner ++ [y])) - 1)%Z
      with (Z.of_nat (length before) + Z.of_nat (length inner) + 1)%Z
      by (rewrite length_cons, length_app; simpl; lia).
    rewrite swapElements_ends.
    replace (before ++ y :: inner ++ x :: after)%list
      with ((before ++ [y]) ++ inner ++ x :: after)%list
      by (now rewrite <- !app_assoc).
    replace (Z.of_nat (length before) + 1)%Z
      with (Z.of_nat (length (before ++ [y])))
      by (rewrite length_app; simpl; lia).
    replace (Z.of_nat (length before) + Z.of_nat (length inner) + 1 - 1)%Z
      with (Z.of_nat (length (before ++ [y])) + Z.of_nat (length inner) - 1)%Z
      by (rewrite length_app; simpl; lia).
    rewrite IH by lia.
    f_equal. simpl. rewrite rev_app_distr. simpl.
    now rewrite <- !app_assoc.
Qed.

Lemma FindDefaultReverse_formula (address : string) :
  FindDefaultReverse address =
    Completed (strings_Join (rev (strings_Split address ".")) "-"
               ++ ".instances.scw.cloud").
Proof.
  unfold FindDefaultReverse.
  pose proof (reverseLoop_reverses (length (strings_Split address "."))
                (strings_Split address ".") [] []) as Hloop.
  rewrite app_nil_r in Hloop. cbn [length app] in Hloop.
  change (Z.of_nat 0) with 0%Z in Hloop. rewrite Z.add_0_l in Hloop.
  rewrite Hloop by lia. now rewrite app_nil_r.
Qed.

Lemma strings_Split_Join (sep : ascii) (elems : list string) :
  elems <> [] ->
  Forall (fun elem => contains sep elem = false) elems ->
  strings_Split (strings_Join elems (String sep "")) sep = elems.
Proof.
  intros Hne Hall. unfold strings_Split.
  induction Hall as [|a rest Ha Hrest IH]; [congruence |].
  destruct rest as [|b rest'].
  - simpl. now rewrite (split_from_no_sep _ _ _ Ha).
  - change (strings_Join (a :: b :: rest') (String sep ""))
      with (a ++ String sep (strings_Join (b :: rest') (String sep ""))).
    rewrite (split_from_sep _ _ _ _ Ha). rewrite IH by discriminate.
    reflexivity.
Qed.

(** X17. [FindDefaultReverse] always completes: its swap loop never leaves
    the slice and reverses it, so the result is the labels of the address
    between dots, in reverse order and joined by hyphens, before the
    instance suffix. An address made of labels without dots comes back as
    those labels reversed. *)
Theorem FindDefaultReverse_reverses :
  (forall address,
     FindDefaultReverse address =
       Completed (strings_Join (rev (strings_Split address ".")) "-"
                  ++ ".instances.scw.cloud")) /\
  (forall labels,
     labels <> [] ->
     Forall (fun label => contains "." label = false) labels ->
     FindDefaultReverse (strings_Join labels ".") =
       Completed (strings_Join (rev labels) "-" ++ ".instances.scw.cloud")).
Proof.
  split.
  - apply FindDefaultReverse_formula.
  - intros labels Hne Hall. rewrite FindDefaultReverse_formula.
    now rewrite (strings_Split_Join "." labels Hne Hall).
Qed.

Lemma FindDefaultReverse_reverses_witness :
  [ "51"; "15"; "1"; "2" ] <> [] /\
  Forall (fun label => contains "." label = false) [ "51"; "15"; "1"; "2" ] /\
  FindDefaultReverse "51.15.1.2" = Completed "2-1-15-51.instances.scw.cloud".
Proof.
  assert (Forall (fun label => contains "." label = false)
            [ "51"; "15"; "1"; "2" ]) as Hall by (repeat constructor).
  split; [discriminate | split; [exact Hall |]].
  exact (proj2 FindDefaultReverse_reverses [ "51"; "15"; "1"; "2" ]
           ltac:(discriminate) Hall).
Defined.

(** *** TLD offers and DNS zones *)

Lemma flattenTldOffers_fold (offers : gmap string (option TldOffer.t)) :
  map_fold
    (fun key offer (flattenedOffers : outcome (gmap string attribute)) =>
       flattenedOffers ← flattenedOffers;
       flattened ← flattenTldOffer offer;
       Ret (<[ key := AMap (Some flattened) ]> flattenedOffers))
    (Ret ∅) offers
  = foldedOffers offers.
Proof.
  apply (map_fold_weak_ind (fun r m => r = foldedOffers m)).
  - unfold foldedOffers, allPriced.
    rewrite bool_decide_eq_true_2 by apply map_Forall_empty.
    now rewrite omap_empty.
  - intros key offer m r Hkey ->. unfold foldedOffers, allPriced.
    destruct (bool_decide (map_Forall (fun _ o => isPriced o = true) m))
      eqn:Hm.
    + apply bool_decide_eq_true_1 in Hm.
      destruct offer as [[action path [price|]]|]; simpl.
      * rewrite bool_decide_eq_true_2
          by (apply map_Forall_insert;
              [exact Hkey | split; [reflexivity | exact Hm]]).
        f_equal. symmetry. now apply omap_insert_Some.
      * rewrite bool_decide_eq_false_2; [reflexivity |].
        intros Hall. apply map_Forall_insert in Hall as [Hp _]; [| exact Hkey].
        discriminate Hp.
      * rewrite bool_decide_eq_false_2; [reflexivity |].
        intros Hall. apply map_Forall_insert in Hall as [Hp _]; [| exact Hkey].
        discriminate Hp.
    + apply bool_decide_eq_false_1 in Hm. simpl.
      rewrite bool_decide_eq_false_2; [reflexivity |].
      intros Hall. apply map_Forall_insert in Hall as [_ Hrest]; [| exact Hkey].
      contradiction.
Qed.

(** X18. [flattenTldOffers] returns a map exactly when every offer is there
    with its price, and panics on a nil pointer otherwise. The map it
    returns has the keys of the offers, each with the literal of its offer;
    for an empty map of offers it is an empty map, not nil. *)
Theorem flattenTldOffers_returns (offers : gmap string (option TldOffer.t)) :
  if allPriced offers
  then exists flattened : gmap string attribute,
         flattenTldOffers (Some offers) = Ret (Some flattened) /\
         dom flattened = dom offers /\
         (forall key offer price,
            offers !! key = Some (Some offer) ->
            TldOffer.Price offer = Some price ->
            flattened !! key = Some (AMap (Some (offerLiteral offer price))))
  else flattenTldOffers (Some offers) = Panic NilDereference.
Proof.
  unfold flattenTldOffers. rewrite flattenTldOffers_fold. unfold foldedOffers.
  destruct (allPriced offers) eqn:Hall; [| reflexivity].
  apply bool_decide_eq_true_1 in Hall.
  eexists. split; [reflexivity |]. split.
  - apply set_eq. intros key. rewrite !elem_of_dom, lookup_omap.
    destruct (offers !! key) as [offer|] eqn:Hkey; simpl.
    + specialize (Hall key offer Hkey). simpl in Hall.
      destruct offer as [[action path [price|]]|]; try discriminate Hall.
      simpl. split; eauto.
    + split; intros [? ?]; discriminate.
  - intros key offer price Hkey Hprice. rewrite lookup_omap, Hkey. simpl.
    now rewrite Hprice.
Qed.

(** X19. [flattenTLD] returns a map exactly when the offers of the TLD
    flatten, and panics with them otherwise. The map has seven keys; its
    [offers] entry holds the flattened offers, nil when the TLD has no
    offers map. *)
Theorem flattenTLD_returns (tld : Tld.t) :
  if match Tld.Offers tld with Some offers => allPriced offers | None => true end
  then exists (m : gmap string attribute) (offers : option (gmap string attribute)),
         flattenTLD (Some tld) = Ret (Some m) /\
         flattenTldOffers (Tld.Offers tld) = Ret offers /\
         isPresent offers = isPresent (Tld.Offers tld) /\
         m !! "offers" = Some (AMap offers) /\
         m !! "name" = Some (AString (Tld.Name tld)) /\
         size m = 7
  else flattenTLD (Some tld) = Panic NilDereference.
Proof.
  unfold flattenTLD.
  destruct (Tld.Offers tld) as [offers|].
  - pose proof (flattenTldOffers_fold offers) as Hfold.
    unfold flattenTldOffers. rewrite Hfold. unfold foldedOffers.
    destruct (allPriced offers); [| reflexivity].
    do 2 eexists. repeat split; try reflexivity.
  - do 2 eexists. repeat split; try reflexivity.
Qed.

Section ZoneFacts.
Context `{TimeRFC3339}.

Lemma rangeZones_all (dnsZones : list (option DNSZone.t)) :
  forall zones,
    if forallb isDated dnsZones
    then exists flattened,
           rangeZones dnsZones zones
           = Ret (match dnsZones with
                  | [] => zones
                  | _ => Some (default [] zones ++ flattened)%list
                  end) /\
           Forall2 datedZone dnsZones flattened
    else rangeZones dnsZones zones = Panic NilDereference.
Proof.
  induction dnsZones as [|zone rest IH]; intros zones.
  - exists []. split; [reflexivity | constructor].
  - cbn [forallb rangeZones].
    destruct zone as [z|]; [| reflexivity]. cbn [isDated].
    destruct (DNSZone.UpdatedAt z) as [date|] eqn:Hdate; [| reflexivity].
    cbn [isPresent formatPointer mbind outcome_bind andb].
    specialize (IH (appendZone zones (zoneLiteral z (time_Format date)))).
    destruct (forallb isDated rest); [| exact IH].
    destruct IH as (flattened & -> & Hall).
    exists (zoneLiteral z (time_Format date) :: flattened). split.
    + f_equal. unfold appendZone.
      destruct rest; [inversion Hall; subst; reflexivity |].
      cbn [default from_option id]. now rewrite <- app_assoc.
    + constructor; [| exact Hall]. exists z, date. auto.
Qed.

(** X20. [flattenDNSZones] returns nil for a nil and for an empty slice.
    For other slices it returns a list exactly when every zone is there with
    its date, and panics on a nil pointer otherwise; the list has one map
    for each zone, in the order of the zones, which is the literal of that
    zone with its date formatted. *)
Theorem flattenDNSZones_returns :
  flattenDNSZones None = Ret None /\
  flattenDNSZones (Some []) = Ret None /\
  (forall dnsZones, dnsZones <> [] ->
     if forallb isDated dnsZones
     then exists flattened,
            flattenDNSZones (Some dnsZones) = Ret (Some flattened) /\
            Forall2 datedZone dnsZones flattened
     else flattenDNSZones (Some dnsZones) = Panic NilDereference).
Proof.
  split; [reflexivity | split; [reflexivity |]].
  intros dnsZones Hne. unfold flattenDNSZones.
  pose proof (rangeZones_all dnsZones None) as Hall.
  destruct (forallb isDated dnsZones); [| exact Hall].
  destruct Hall as (flattened & -> & Hall). exists flattened.
  split; [| exact Hall]. destruct dnsZones; [congruence | reflexivity].
Qed.
End ZoneFacts.

Lemma flattenDNSZones_returns_witness :
  let zone name :=
    Some (DNSZone.mk name "" (Some ["ns0.dom.scw.cloud"]) None None "active"
            None (Some (mkTime 2024 3 1 10 20 30 0 0)) "proj-1") in
  let dnsZones := [ zone "example.com"; zone "example.org" ] in
  dnsZones <> [] /\
  exists flattened,
    flattenDNSZones (H := utcTime) (Some dnsZones) = Ret (Some flattened) /\
    Forall2 (datedZone (H := utcTime)) dnsZones flattened.
Proof.
  intros zone dnsZones. split; [discriminate |].
  exact (proj2 (proj2 (@flattenDNSZones_returns utcTime)) dnsZones
           ltac:(discriminate)).
Defined.

(** *** Create path *)

Section CreateFacts.
Context `{TimeRFC3339}.

Lemma contactOfRole_exclusive (d : ResourceData.t) (idKey contactKey : string)
  (role : option string * option NewContact.t) :
  contactOfRole d idKey contactKey = Ret role -> exclusiveRole role.
Proof.
  unfold contactOfRole.
  destruct (ResourceData.Get d idKey) as [| contactID | | | | |];
    cbn [mustString mbind outcome_bind]; try discriminate.
  destruct (String.eqb_spec contactID "") as [-> | Hne]; cbn [negb].
  - destruct (ResourceData.GetOk d contactKey) as [contact [|]].
    + destruct contact as [| | | | | | m];
        cbn [mustMap mbind outcome_bind]; try discriminate.
      destruct (ExpandNewContact m) as [c| |];
        cbn [mbind outcome_bind]; try discriminate.
      now intros [= <-].
    + now intros [= <-].
  - now intros [= <-].
Qed.

(** X21. The request the create path builds never names a role twice: for
    each of the owner, administrative and technical contacts it holds a
    contact ID that is not empty and no inline contact, or no contact ID;
    and it asks for the one domain name of the configuration. *)
Theorem buyDomainsRequest_exclusive (d : ResourceData.t) (domainName : string)
  (request : RegistrarAPIBuyDomainsRequest.t) :
  buyDomainsRequest d = Ret (domainName, request) ->
  RegistrarAPIBuyDomainsRequest.Domains request = [domainName] /\
  exclusiveRole (RegistrarAPIBuyDomainsRequest.OwnerContactID request,
                 RegistrarAPIBuyDomainsRequest.OwnerContact request) /\
  exclusiveRole (RegistrarAPIBuyDomainsRequest.AdministrativeContactID request,
                 RegistrarAPIBuyDomainsRequest.AdministrativeContact request) /\
  exclusiveRole (RegistrarAPIBuyDomainsRequest.TechnicalContactID request,
                 RegistrarAPIBuyDomainsRequest.TechnicalContact request).
Proof.
  unfold buyDomainsRequest.
  destruct (mustString (ResourceData.Get d "project_id")) as [p| |];
    cbn [mbind outcome_bind]; try discriminate.
  destruct (mustString (ResourceData.Get d "domain_name")) as [n| |];
    cbn [mbind outcome_bind]; try discriminate.
  destruct (mustInt (ResourceData.Get d "duration_in_years")) as [y| |];
    cbn [mbind outcome_bind]; try discriminate.
  destruct (contactOfRole d "owner_contact_id" "owner_contact")
    as [owner| |] eqn:Howner; cbn [mbind outcome_bind]; try discriminate.
  destruct (contactOfRole d "administrative_contact_id" _)
    as [admin| |] eqn:Hadmin; cbn [mbind outcome_bind]; try discriminate.
  destruct (contactOfRole d "technical_contact_id" _)
    as [tech| |] eqn:Htech; cbn [mbind outcome_bind]; try discriminate.
  intros [= <- <-]. cbn.
  apply contactOfRole_exclusive in Howner, Hadmin, Htech.
  destruct owner, admin, tech. auto.
Qed.

(** A contact ID that is not empty decides the role; the inline contact is
    not looked at. *)
Lemma contactOfRole_by_reference (d : ResourceData.t)
  (idKey contactKey contactID : string) :
  ResourceData.Get d idKey = VString contactID -> contactID <> "" ->
  contactOfRole d idKey contactKey = Ret (Some contactID, None).
Proof.
  intros Hid Hne. unfold contactOfRole. rewrite Hid.
  cbn [mustString mbind outcome_bind].
  apply String.eqb_neq in Hne. now rewrite Hne.
Qed.

Lemma contactOfRole_omitted (d : ResourceData.t) (idKey contactKey : string)
  (contact : value) :
  ResourceData.Get d idKey = VString "" ->
  ResourceData.GetOk d contactKey = (contact, false) ->
  contactOfRole d idKey contactKey = Ret (None, None).
Proof.
  intros Hid Hok. unfold contactOfRole. now rewrite Hid, Hok.
Qed.

(** X22. Create by reference: with an owner contact ID that is not empty,
    empty administrative and technical IDs and no inline contact for these
    two, the request holds the domain name, the duration, the project ID and
    the owner contact ID, and nothing else, whatever the inline owner
    contact is. *)
Theorem buyDomainsRequest_owner_by_reference (d : ResourceData.t)
  (projectID domainName ownerContactID : string) (durationInYears : Z)
  (admin tech : value) :
  ResourceData.Get d "project_id" = VString projectID ->
  ResourceData.Get d "domain_name" = VString domainName ->
  ResourceData.Get d "duration_in_years" = VInt durationInYears ->
  (0 <= durationInYears < 2 ^ 32)%Z ->
  ResourceData.Get d "owner_contact_id" = VString ownerContactID ->
  ownerContactID <> "" ->
  ResourceData.Get d "administrative_contact_id" = VString "" ->
  ResourceData.GetOk d "administrative_contact" = (admin, false) ->
  ResourceData.Get d "technical_contact_id" = VString "" ->
  ResourceData.GetOk d "technical_contact" = (tech, false) ->
  buyDomainsRequest d =
    Ret (domainName,
         RegistrarAPIBuyDomainsRequest.mk [domainName] durationInYears
           projectID (Some ownerContactID) None None None None None).
Proof.
  intros Hproject Hdomain Hduration Hrange Howner Hne Hadmin Hadmin' Htech
    Htech'.
  unfold buyDomainsRequest. rewrite Hproject, Hdomain, Hduration.
  cbn [mustString mustInt mbind outcome_bind].
  rewrite (contactOfRole_by_reference _ _ _ _ Howner Hne).
  rewrite (contactOfRole_omitted _ _ _ _ Hadmin Hadmin').
  rewrite (contactOfRole_omitted _ _ _ _ Htech Htech').
  cbn [mbind outcome_bind fst snd]. unfold uint32_of_int.
  now rewrite Z.mod_small.
Qed.

(** X23. Once the request is built, create calls the API with it. On an
    error it returns that error, leaves the resource data as they were and
    does not read; on success it sets the identifier to the project ID of
    the response, a slash and the domain name, and ends with the read of
    the resource data so identified, from which the decoder gets the domain
    name back when neither part has a slash. *)
Theorem resourceOrderDomainCreate_outcomes
  (BuyDomains : RegistrarAPIBuyDomainsRequest.t -> OrderResponse.t + string)
  (read : ResourceData.t -> ResourceData.t * outcome unit)
  (d : ResourceData.t) (domainName : string)
  (request : RegistrarAPIBuyDomainsRequest.t) :
  buyDomainsRequest d = Ret (domainName, request) ->
  match BuyDomains request with
  | inr err =>
      forall read',
        resourceOrderDomainCreate BuyDomains read' d = (d, Err err)
  | inl resp =>
      exists d',
        resourceOrderDomainCreate BuyDomains read d = read d' /\
        ResourceData.Id d' = OrderResponse.ProjectID resp ++ "/" ++ domainName /\
        ResourceData.Get d' = ResourceData.Get d /\
        ResourceData.GetOk d' = ResourceData.GetOk d /\
        (contains "/" (OrderResponse.ProjectID resp) = false ->
         contains "/" domainName = false ->
         extractDomainFromID (ResourceData.Id d') = Ret domainName)
  end.
Proof.
  intros Hrequest. unfold resourceOrderDomainCreate. rewrite Hrequest.
  destruct (BuyDomains request) as [resp|err].
  - eexists. repeat split. intros Hp Hd.
    unfold extractDomainFromID, resourceOrderDomainID, strings_Split.
    cbn [ResourceData.Id ResourceData.SetId].
    change ("/" ++ domainName) with (String "/" domainName).
    rewrite (split_from_sep _ _ _ _ Hp), (split_from_no_sep _ _ _ Hd).
    reflexivity.
  - reflexivity.
Qed.
End CreateFacts.

Lemma buyDomainsRequest_exclusive_witness :
  exists request,
    buyDomainsRequest (H := utcTime) sampleResourceData
    = Ret ("example.com", request) /\
    RegistrarAPIBuyDomainsRequest.Domains request = ["example.com"] /\
    RegistrarAPIBuyDomainsRequest.OwnerContactID request = Some "contact-9" /\
    RegistrarAPIBuyDomainsRequest.OwnerContact request = None.
Proof.
  eexists. split; [reflexivity |].
  destruct (@buyDomainsRequest_exclusive utcTime sampleResourceData
              "example.com" _ eq_refl) as (Hdomains & _).
  split; [exact Hdomains | split; reflexivity].
Defined.

Lemma buyDomainsRequest_owner_by_reference_witness :
  buyDomainsRequest (H := utcTime) sampleResourceData =
    Ret ("example.com",
         RegistrarAPIBuyDomainsRequest.mk ["example.com"] 2 "proj-1"
           (Some "contact-9") None None None None None).
Proof.
  apply (@buyDomainsRequest_owner_by_reference utcTime sampleResourceData
           "proj-1" "example.com" "contact-9" 2 (VMap None) (VMap None));
    try reflexivity; [lia | discriminate].
Defined.

Lemma resourceOrderDomainCreate_outcomes_witness :
  let BuyDomains := fun _ : RegistrarAPIBuyDomainsRequest.t =>
    inl (OrderResponse.mk "proj-1") : OrderResponse.t + string in
  let read := fun d : ResourceData.t => (d, Ret tt) in
  exists d',
    resourceOrderDomainCreate (H := utcTime) BuyDomains read
      sampleResourceData = read d' /\
    ResourceData.Id d' = "proj-1/example.com" /\
    extractDomainFromID (ResourceData.Id d') = Ret "example.com".
Proof.
  intros BuyDomains read.
  destruct (@resourceOrderDomainCreate_outcomes utcTime BuyDomains read
              sampleResourceData "example.com" _ eq_refl)
    as (d' & Hcreate & Hid & _ & _ & Hdecode).
  exists d'. split; [exact Hcreate |]. split; [exact Hid |].
  apply Hdecode; reflexivity.
Defined.

(** *** What the new-contact expansion leaves out *)

Section NewContactLang.
Context `{TimeRFC3339}.

(** X24. [ExpandNewContact] never reads [lang]: whatever is stored under
    that key, the result is the one for the map without it, so the language
    of an inline contact does not reach the request. *)
Theorem ExpandNewContact_ignores_lang (m : gmap string value) (v : value) :
  ExpandNewContact (Some (<[ "lang" := v ]> m))
  = ExpandNewContact (Some (delete "lang" m)).
Proof.
  unfold ExpandNewContact. index_simpl. reflexivity.
Qed.

End NewContactLang.
